(** * Socket chat coordinator: shallow embedding of server/index.js

    (the second part of src/client/src/App.jsx).  The server keeps three
    mutable tables in process memory: [users] (socket id -> session),
    [messages] (append-only array) and [rooms] (array of room names).
    Every socket handler reads and writes these tables and emits events
    through socket.io.  Handlers are embedded as functions from the state
    before to a [Result]: the state after, the events emitted (one entry
    per receiving socket) and the value handed to the acknowledgement
    callback.

    The [users] object is a [gmap] keyed by socket id; arrays built from
    [Object.values] / [Object.entries] are therefore compared as sets of
    entries, not by position.  Timestamps ([new Date().toISOString()]) are
    the clock reading in milliseconds, ids ([uuidv4()]) are supplied by the
    environment.  Payload fields are strings, possibly missing. *)

From stdpp Require Import gmap strings list fin_maps sorting.

Open Scope string_scope.

(** ** Data model *)

(** users[socket.id] = { username, room, lastSeen } *)
Record Session := mkSession {
  username : string;
  room : string;
  lastSeen : Z
}.

(** An element of msg.reactions: { user, reaction } *)
Record Reaction := mkReaction {
  user : string;
  reaction : string
}.

(** {id, text, file, sender, timestamp, room, isPrivate, to,
     reactions:[], readBy:[], deliveredTo:[]} ; [to] and [file] are a
    string or null. *)
Record Message := mkMessage {
  msg_id : string;
  text : string;
  file : option string;
  sender : string;
  timestamp : Z;
  msg_room : string;
  isPrivate : bool;
  msg_to : option string;
  reactions : list Reaction;
  readBy : list string;
  deliveredTo : list string
}.

(** Events the server emits to clients. *)
Inductive ServerEvent :=
| EvOnlineUsers (l : list Session)
| EvNotification (s : string)
| EvPrivateMessage (m : Message)
| EvReceiveMessage (m : Message)
| EvTyping (uname : string) (isTyping : bool) (private : bool)
| EvReactionUpdate (m : Message)
| EvReadUpdate (m : Message).

(** Values passed to the acknowledgement callback [cb]. *)
Inductive Ack :=
| AckOk                              (* { status: "ok" } *)
| AckDelivered (mid : string)        (* { status: "delivered", id } *)
| AckError (e : string)              (* { error: e } *)
| AckCounts (c : gmap string nat).   (* getUnreadCounts *)

(** The three error acknowledgements of the server. *)
Definition ValidationError : Ack := AckError "Username required".
Definition NotJoinedError : Ack := AckError "Not joined".
Definition NotFoundError : Ack := AckError "Message not found".

(** The shared state.  [sio] is socket.io's adapter: the pair (s, r) is
    present when socket s is in socket.io room r.  A socket is put in the
    room named by its own id when it connects, [io.to(x)] addresses room
    x, whether x is a room name or a socket id. *)
Record State := mkState {
  users : gmap string Session;
  messages : list Message;
  rooms : list string;
  sio : gset (string * string)
}.

(** let users = {}; let messages = []; let rooms = ["global"]; *)
Definition init : State := mkState ∅ [] ["global"] ∅.

Record Result := mkResult {
  next : State;
  emitted : list (string * ServerEvent);
  ack : option Ack
}.

(** A handler either returns or throws (an uncaught TypeError). *)
Inductive Outcome :=
| Returned (r : Result)
| Thrown (e : string).

(** ** JavaScript helpers *)

(** Truthiness of a string: every string but the empty one. *)
Definition truthy (s : string) : bool := negb (s =? "").

(** A value that is a string or missing (undefined or null), kept when
    it is truthy: the test [if (!v)] and the expression [v || null]. *)
Definition or_null (v : option string) : option string :=
  match v with
  | Some s => if truthy s then Some s else None
  | None => None
  end.

Definition js_truthy (v : option string) : bool :=
  match or_null v with Some _ => true | None => false end.

(** s === v for a string s and a value v that is a string or missing *)
Definition str_eq_opt (s : string) (v : option string) : bool :=
  match v with Some t => s =? t | None => false end.

(** arr.includes(x) on an array of strings *)
Definition includes (x : string) (arr : list string) : bool :=
  existsb (String.eqb x) arr.

(** Two arrays of strings with the same elements, whatever the order. *)
Definition same_set (l1 l2 : list string) : bool :=
  forallb (λ x, includes x l2) l1 && forallb (λ x, includes x l1) l2.

(** arr.push(x) *)
Definition push {A} (arr : list A) (x : A) : list A := (arr ++ [x])%list.

(** cb && cb(a): the acknowledgement reaches the caller when a callback
    was supplied. *)
Definition reply (cb : bool) (a : Ack) : option Ack :=
  if cb then Some a else None.

(** ** socket.io *)

(** Sockets currently in socket.io room [r]. *)
Definition members (r : string) (a : gset (string * string)) : list string :=
  List.map fst (elements (filter (λ p, p.2 = r) a)).

(** io.to(r).emit(ev) *)
Definition io_to_emit (a : gset (string * string)) (r : string)
    (ev : ServerEvent) : list (string * ServerEvent) :=
  List.map (λ c, (c, ev)) (members r a).

(** socket.emit(ev) *)
Definition socket_emit (sid : string) (ev : ServerEvent)
    : list (string * ServerEvent) :=
  [(sid, ev)].

(** socket.to(r).emit(ev): room r without the socket itself *)
Definition socket_to_emit (a : gset (string * string)) (sid r : string)
    (ev : ServerEvent) : list (string * ServerEvent) :=
  List.map (λ c, (c, ev))
    (List.filter (λ c, negb (c =? sid)) (members r a)).

Definition socket_join (sid r : string) (a : gset (string * string))
    : gset (string * string) :=
  {[ (sid, r) ]} ∪ a.

Definition socket_leave (sid r : string) (a : gset (string * string))
    : gset (string * string) :=
  a ∖ {[ (sid, r) ]}.

(** On connection the socket is in the room of its own id. *)
Definition sio_connect (sid : string) (a : gset (string * string))
    : gset (string * string) :=
  socket_join sid sid a.

(** On close the socket leaves every room, before the "disconnect"
    handler runs. *)
Definition sio_leave_all (sid : string) (a : gset (string * string))
    : gset (string * string) :=
  filter (λ p, p.1 ≠ sid) a.

(** The sockets that receive something in a list of emissions. *)
Definition receivers (out : list (string * ServerEvent)) : list string :=
  List.map fst out.

(** ** Handlers *)

(** const onlineUsersInRoom = (room) =>
      Object.values(users).filter(u => u.room === room); *)
Definition onlineUsersInRoom (us : gmap string Session) (r : string)
    : list Session :=
  List.filter (λ u, room u =? r) (List.map snd (map_to_list us)).

Record JoinPayload := mkJoin {
  join_username : option string;
  join_room : option string
}.

(** socket.on("join", ({ username, room = "global" }, cb) => ...) *)
Definition on_join (st : State) (sid : string) (now : Z) (p : JoinPayload)
    (cb : bool) : Result :=
  match or_null (join_username p) with
  | None => mkResult st [] (reply cb (AckError "Username required"))
  | Some uname =>
      let r := default "global" (join_room p) in
      let users1 := <[sid := mkSession uname r now]> (users st) in
      let rooms1 := if includes r (rooms st) then rooms st
                    else push (rooms st) r in
      let sio1 := socket_join sid r (sio st) in
      mkResult (mkState users1 (messages st) rooms1 sio1)
        (io_to_emit sio1 r (EvOnlineUsers (onlineUsersInRoom users1 r))
         ++ io_to_emit sio1 r (EvNotification (uname ++ " joined " ++ r))
        )%list
        (reply cb AckOk)
  end.

(** socket.on("joinRoom", ({ room }, cb) => ...).  [u] is the session
    object itself: after [u.room = room] every later [u.room] reads the
    new room. *)
Definition on_joinRoom (st : State) (sid : string) (r : string) (cb : bool)
    : Result :=
  match users st !! sid with
  | None => mkResult st [] (reply cb (AckError "Not joined"))
  | Some u =>
      let sio1 := socket_leave sid (room u) (sio st) in
      let u1 := mkSession (username u) r (lastSeen u) in
      let users1 := <[sid := u1]> (users st) in
      let sio2 := socket_join sid r sio1 in
      mkResult (mkState users1 (messages st) (rooms st) sio2)
        (io_to_emit sio2 (room u1)
           (EvOnlineUsers (onlineUsersInRoom users1 (room u1)))
         ++ io_to_emit sio2 r (EvOnlineUsers (onlineUsersInRoom users1 r))
         ++ io_to_emit sio2 r (EvNotification (username u1 ++ " joined " ++ r))
        )%list
        (reply cb AckOk)
  end.

(** data: { text, isPrivate=false, to (username if private), file? } ;
    [send_isPrivate] is the truthiness [!!data.isPrivate]. *)
Record SendPayload := mkSend {
  send_text : option string;
  send_file : option string;
  send_isPrivate : bool;
  send_to : option string
}.

(** Object.entries(users).filter(([sid,u]) => u.username === name) *)
Definition entries_named (us : gmap string Session) (name : string)
    : list (string * Session) :=
  List.filter (λ e, username e.2 =? name) (map_to_list us).

(** The message object built by the sendMessage handler. *)
Definition new_message (u : Session) (uuid : string) (now : Z)
    (data : SendPayload) : Message :=
  {| msg_id := uuid;
     text := default "" (or_null (send_text data));
     file := or_null (send_file data);
     sender := username u;
     timestamp := now;
     msg_room := room u;
     isPrivate := send_isPrivate data;
     msg_to := or_null (send_to data);
     reactions := [];
     readBy := [];
     deliveredTo := [] |}.

(** socket.on("sendMessage", (data, cb) => ...) *)
Definition on_sendMessage (st : State) (sid : string) (uuid : string)
    (now : Z) (data : SendPayload) (cb : bool) : Result :=
  match users st !! sid with
  | None => mkResult st [] (reply cb (AckError "Not joined"))
  | Some u =>
      let msg := new_message u uuid now data in
      let st1 := mkState (users st) (push (messages st) msg) (rooms st)
                   (sio st) in
      let out :=
        match isPrivate msg, msg_to msg with
        | true, Some rcpt =>
            (flat_map (λ e, io_to_emit (sio st) e.1 (EvPrivateMessage msg))
               (entries_named (users st) rcpt)
             ++ socket_emit sid (EvPrivateMessage msg))%list
        | _, _ => io_to_emit (sio st) (msg_room msg) (EvReceiveMessage msg)
        end in
      mkResult st1 out (reply cb (AckDelivered (msg_id msg)))
  end.

(** data: { isTyping, isPrivate, to } *)
Record TypingPayload := mkTyping {
  typing_isTyping : bool;
  typing_isPrivate : bool;
  typing_to : option string
}.

(** socket.on("typing", (data) => ...): no callback. *)
Definition on_typing (st : State) (sid : string) (data : TypingPayload)
    : Result :=
  match users st !! sid with
  | None => mkResult st [] None
  | Some u =>
      let out :=
        match typing_isPrivate data, or_null (typing_to data) with
        | true, Some rcpt =>
            flat_map
              (λ e, io_to_emit (sio st) e.1
                      (EvTyping (username u) (typing_isTyping data) true))
              (entries_named (users st) rcpt)
        | _, _ =>
            socket_to_emit (sio st) sid (room u)
              (EvTyping (username u) (typing_isTyping data) false)
        end in
      mkResult st out None
  end.

(** messages.find(m => m.id === messageId) *)
Definition find_message (mid : string) (ms : list Message) : option Message :=
  List.find (λ m, msg_id m =? mid) ms.

(** The object returned by [find] is the array element itself: a write
    to it changes the first element of that id, in place. *)
Fixpoint update_found (mid : string) (f : Message → Message)
    (ms : list Message) : list Message :=
  match ms with
  | [] => []
  | m :: rest =>
      if msg_id m =? mid then f m :: rest
      else m :: update_found mid f rest
  end.

Definition add_reaction (r : Reaction) (m : Message) : Message :=
  {| msg_id := msg_id m; text := text m; file := file m; sender := sender m;
     timestamp := timestamp m; msg_room := msg_room m;
     isPrivate := isPrivate m; msg_to := msg_to m;
     reactions := push (reactions m) r;
     readBy := readBy m; deliveredTo := deliveredTo m |}.

Definition add_reader (name : string) (m : Message) : Message :=
  {| msg_id := msg_id m; text := text m; file := file m; sender := sender m;
     timestamp := timestamp m; msg_room := msg_room m;
     isPrivate := isPrivate m; msg_to := msg_to m;
     reactions := reactions m;
     readBy := push (readBy m) name; deliveredTo := deliveredTo m |}.

(** Targets of reactionUpdate / readUpdate for a message:
    if (msg.isPrivate && msg.to) the sockets of both participants,
    else io.to(msg.room). *)
Definition emit_update (st : State) (msg : Message) (ev : ServerEvent)
    : list (string * ServerEvent) :=
  match isPrivate msg, or_null (msg_to msg) with
  | true, Some rcpt =>
      flat_map (λ e, io_to_emit (sio st) e.1 ev)
        (List.filter
           (λ e, (username e.2 =? rcpt) || (username e.2 =? sender msg))
           (map_to_list (users st)))
  | _, _ => io_to_emit (sio st) (msg_room msg) ev
  end.

(** socket.on("react", ({ messageId, reaction }, cb) => ...).
    [users[socket.id].username] throws a TypeError when the socket has no
    session; the argument of [push] is evaluated before anything is
    written. *)
Definition on_react (st : State) (sid : string) (messageId rn : string)
    (cb : bool) : Outcome :=
  match find_message messageId (messages st) with
  | None => Returned (mkResult st [] (reply cb (AckError "Message not found")))
  | Some msg =>
      match users st !! sid with
      | None => Thrown "TypeError"
      | Some u =>
          let msg1 := add_reaction (mkReaction (username u) rn) msg in
          let st1 := mkState (users st)
                       (update_found messageId
                          (add_reaction (mkReaction (username u) rn))
                          (messages st))
                       (rooms st) (sio st) in
          Returned (mkResult st1 (emit_update st msg1 (EvReactionUpdate msg1))
                      (reply cb AckOk))
      end
  end.

(** socket.on("readMessage", ({ messageId }, cb) => ...) *)
Definition on_readMessage (st : State) (sid : string) (messageId : string)
    (cb : bool) : Result :=
  match find_message messageId (messages st) with
  | None => mkResult st [] (reply cb (AckError "Message not found"))
  | Some msg =>
      match or_null (username <$> users st !! sid) with
      | Some name =>
          if negb (includes name (readBy msg)) then
            let msg1 := add_reader name msg in
            let st1 := mkState (users st)
                         (update_found messageId (add_reader name)
                            (messages st))
                         (rooms st) (sio st) in
            mkResult st1 (emit_update st msg1 (EvReadUpdate msg1))
              (reply cb AckOk)
          else
            mkResult st (emit_update st msg (EvReadUpdate msg))
              (reply cb AckOk)
      | None =>
          mkResult st (emit_update st msg (EvReadUpdate msg)) (reply cb AckOk)
      end
  end.

(** counts[k] = (counts[k] || 0) + 1 *)
Definition bump (k : string) (counts : gmap string nat) : gmap string nat :=
  <[k := S (default 0 (counts !! k))]> counts.

(** socket.on("getUnreadCounts", (cb) => ...) *)
Definition on_getUnreadCounts (st : State) (sid : string) (cb : bool)
    : Result :=
  match users st !! sid with
  | None => mkResult st [] (reply cb (AckError "Not joined"))
  | Some u =>
      let counts :=
        fold_left
          (λ counts m,
             if isPrivate m then
               if str_eq_opt (username u) (msg_to m)
                  && negb (includes (username u) (readBy m))
               then bump (sender m) counts else counts
             else
               if (msg_room m =? room u)
                  && negb (includes (username u) (readBy m))
               then bump (msg_room m) counts else counts)
          (messages st) ∅ in
      mkResult st [] (reply cb (AckCounts counts))
  end.

(** socket.on("disconnect", () => ...) *)
Definition on_disconnect (st : State) (sid : string) : Result :=
  match users st !! sid with
  | None => mkResult st [] None
  | Some u =>
      let leftRoom := room u in
      let users1 := delete sid (users st) in
      mkResult (mkState users1 (messages st) (rooms st) (sio st))
        (io_to_emit (sio st) leftRoom
           (EvOnlineUsers (onlineUsersInRoom users1 leftRoom))
         ++ io_to_emit (sio st) leftRoom
              (EvNotification (username u ++ " left " ++ leftRoom)))%list
        None
  end.

(** ** HTTP endpoints *)

(** app.post("/rooms"): 400 when the name is missing, otherwise
    insert-if-absent; the response is the room list. *)
Definition post_rooms (st : State) (name : option string)
    : State * option (list string) :=
  match or_null name with
  | None => (st, None)
  | Some n =>
      let rooms1 := if includes n (rooms st) then rooms st
                    else push (rooms st) n in
      (mkState (users st) (messages st) rooms1 (sio st), Some rooms1)
  end.

(** The query string of GET /messages.  [q_page] and [q_limit] are the
    integers read by [parseInt]; [q_private] is [private === "true"].
    The handler computes on doubles: the integer arithmetic below is what
    it computes as long as the numbers involved stay within
    Number.MAX_SAFE_INTEGER; a longer digit string is rounded or read as
    Infinity, and a text that is no number as NaN, which have no value
    here. *)
Record HistoryQuery := mkQuery {
  q_room : option string;
  q_page : option Z;
  q_limit : option Z;
  q_private : bool;
  q_peer : option string;
  q_requester : option string
}.

(** m.to === requester: [to] is null or a string, [requester] undefined
    or a string, so they are equal only as equal strings. *)
Definition to_eq (t v : option string) : bool :=
  match t with Some s => str_eq_opt s v | None => false end.

(** The predicate of messages.filter in GET /messages. *)
Definition history_filter (q : HistoryQuery) (m : Message) : bool :=
  if q_private q then
    match or_null (q_peer q) with
    | None => false
    | Some peer =>
        isPrivate m
        && (((sender m =? peer) && to_eq (msg_to m) (q_requester q))
            || (str_eq_opt (sender m) (q_requester q)
                && to_eq (msg_to m) (Some peer))
            || ((sender m =? peer) && to_eq (msg_to m) (q_requester q)))
    end
  else negb (isPrivate m) && (msg_room m =? default "global" (q_room q)).

(** filtered.sort((a,b) => new Date(a.timestamp) - new Date(b.timestamp)):
    Array.prototype.sort is stable, the result is the stable ordering by
    timestamp. *)
Fixpoint insert_by_time (m : Message) (l : list Message) : list Message :=
  match l with
  | [] => [m]
  | x :: rest =>
      if (timestamp m <=? timestamp x)%Z then m :: l
      else x :: insert_by_time m rest
  end.

Definition sort_by_time (l : list Message) : list Message :=
  foldr insert_by_time [] l.

(** arr.slice(start, end): a negative index counts from the end of the
    array, both are clamped to the array. *)
Definition js_slice {A} (arr : list A) (start end_ : Z) : list A :=
  let len := Z.of_nat (length arr) in
  let k := if (start <? 0)%Z then Z.max (len + start) 0
           else Z.min start len in
  let final := if (end_ <? 0)%Z then Z.max (len + end_) 0
               else Z.min end_ len in
  take (Z.to_nat (final - k)) (drop (Z.to_nat k) arr).

Record HistoryPage := mkPage {
  page_messages : list Message;
  total : nat
}.

(** app.get("/messages", ...) *)
Definition get_messages (ms : list Message) (q : HistoryQuery)
    : HistoryPage :=
  let pageNum := Z.max 1 (default 1%Z (q_page q)) in
  let lim := Z.max 1 (default 20%Z (q_limit q)) in
  let filtered := sort_by_time (List.filter (history_filter q) ms) in
  let len := Z.of_nat (length filtered) in
  let start := Z.max 0 (len - pageNum * lim) in
  let end_ := (len - (pageNum - 1) * lim)%Z in
  mkPage (js_slice filtered start end_) (length filtered).

(** ** The server as a transition system *)

Inductive Event :=
| Connect (sid : string)
| Join (sid : string) (now : Z) (p : JoinPayload) (cb : bool)
| JoinRoom (sid : string) (r : string) (cb : bool)
| SendMessage (sid : string) (uuid : string) (now : Z) (data : SendPayload)
    (cb : bool)
| Typing (sid : string) (data : TypingPayload)
| React (sid : string) (messageId rn : string) (cb : bool)
| ReadMessage (sid : string) (messageId : string) (cb : bool)
| GetUnreadCounts (sid : string) (cb : bool)
| Disconnect (sid : string)
| PostRooms (name : option string)
| GetMessages (q : HistoryQuery).

Definition with_sio (st : State) (a : gset (string * string)) : State :=
  mkState (users st) (messages st) (rooms st) a.

(** A socket closes: socket.io takes it out of its rooms, then the
    "disconnect" handler runs. *)
Definition close_socket (st : State) (sid : string) : Result :=
  on_disconnect (with_sio st (sio_leave_all sid (sio st))) sid.

(** GET /messages only reads the store (it sorts the filtered copy, its
    response is [get_messages]); POST /upload touches none of the tables
    and is left out. *)
Definition step (st : State) (ev : Event) : Outcome :=
  match ev with
  | Connect sid =>
      Returned (mkResult (with_sio st (sio_connect sid (sio st))) [] None)
  | Join sid now p cb => Returned (on_join st sid now p cb)
  | JoinRoom sid r cb => Returned (on_joinRoom st sid r cb)
  | SendMessage sid uuid now data cb =>
      Returned (on_sendMessage st sid uuid now data cb)
  | Typing sid data => Returned (on_typing st sid data)
  | React sid mid rn cb => on_react st sid mid rn cb
  | ReadMessage sid mid cb => Returned (on_readMessage st sid mid cb)
  | GetUnreadCounts sid cb => Returned (on_getUnreadCounts st sid cb)
  | Disconnect sid => Returned (close_socket st sid)
  | PostRooms name => Returned (mkResult (post_rooms st name).1 [] None)
  | GetMessages q => Returned (mkResult st [] None)
  end.

(** Running a sequence of events; an uncaught exception ends the process
    and with it the in-memory state. *)
Fixpoint run (st : State) (evs : list Event) : option State :=
  match evs with
  | [] => Some st
  | ev :: rest =>
      match step st ev with
      | Returned r => run (next r) rest
      | Thrown _ => None
      end
  end.

(** The presence operations on their own: none of them throws. *)
Inductive PresenceOp :=
| OpJoin (sid : string) (now : Z) (p : JoinPayload) (cb : bool)
| OpJoinRoom (sid : string) (r : string) (cb : bool)
| OpDisconnect (sid : string).

Definition apply_op (st : State) (op : PresenceOp) : State :=
  match op with
  | OpJoin sid now p cb => next (on_join st sid now p cb)
  | OpJoinRoom sid r cb => next (on_joinRoom st sid r cb)
  | OpDisconnect sid => next (close_socket st sid)
  end.

Definition run_ops (st : State) (ops : list PresenceOp) : State :=
  fold_left apply_op ops st.

(** ** Invariants and views used in the statements *)

(** Every session's socket is the only member of the socket.io room
    named by its own id, as socket.io sets it up on connection. *)
Definition own_rooms_intact (st : State) : bool :=
  forallb (λ e, same_set (members e.1 (sio st)) [e.1])
    (map_to_list (users st)).

(** The same for the sockets of the users called [names] alone. *)
Definition named_rooms_intact (st : State) (names : list string) : bool :=
  forallb
    (λ e, negb (includes (username e.2) names)
          || same_set (members e.1 (sio st)) [e.1])
    (map_to_list (users st)).

(** Every session's socket is in the socket.io room of its session. *)
Definition subscribed (st : State) : Prop :=
  ∀ sid u, users st !! sid = Some u → (sid, room u) ∈ sio st.

(** Every session's room is in the room directory. *)
Definition rooms_cover_sessions (st : State) : Prop :=
  ∀ sid u, users st !! sid = Some u → In (room u) (rooms st).

Definition is_joinRoom (op : PresenceOp) : bool :=
  match op with OpJoinRoom _ _ _ => true | _ => false end.

(** Oldest first. *)
Definition by_time (a b : Message) : Prop := (timestamp a ≤ timestamp b)%Z.

(** The array returned by onlineUsersInRoom, with the socket of each
    element. *)
Definition entries_in_room (us : gmap string Session) (r : string)
    : list (string * Session) :=
  List.filter (λ e, room e.2 =? r) (map_to_list us).

(** The fields of a stored message that no handler writes. *)
Definition frozen (m : Message) :=
  (msg_id m, text m, file m, sender m, timestamp m, msg_room m, isPrivate m,
   msg_to m, deliveredTo m).

(** What one event does to the array of messages: nothing, one push of a
    fresh record, or a write to [reactions] or [readBy] of one element. *)
Inductive store_change (ms : list Message) : list Message → Prop :=
| store_same : store_change ms ms
| store_push (m : Message) :
    deliveredTo m = [] → store_change ms (push ms m)
| store_update (mid : string) (f : Message → Message) :
    (∀ m, frozen (f m) = frozen m) → store_change ms (update_found mid f ms).

(** ** The claims as the specification words them *)

(** The claim as the specification words it: a private message reaches
    exactly the sockets of the recipient and of the sender. *)
Definition private_reaches_both_users (st : State) (sid uuid : string)
    (now : Z) (data : SendPayload) (cb : bool) : Prop :=
  ∀ u rcpt,
    users st !! sid = Some u →
    send_isPrivate data = true →
    or_null (send_to data) = Some rcpt →
    ∀ c, In c (receivers (emitted (on_sendMessage st sid uuid now data cb)))
         ↔ ∃ v, users st !! c = Some v
                ∧ (username v = rcpt ∨ username v = username u).

(** The claim as the specification words it: the operation returns, its
    acknowledgement is the not-joined error and the state is untouched. *)
Definition rejected_as_unjoined (st : State) (ev : Event) : Prop :=
  ∃ r, step st ev = Returned r ∧ ack r = Some NotJoinedError ∧ next r = st.

(** The characters String.prototype.trim strips, among the ASCII ones:
    space, tab, line feed, vertical tab, form feed, carriage return. *)
Definition is_space (c : Ascii.ascii) : bool :=
  let n := Ascii.nat_of_ascii c in
  (n =? 32)%nat || ((9 <=? n)%nat && (n <=? 13)%nat).

(** !s.trim() *)
Fixpoint blank (s : string) : bool :=
  match s with
  | EmptyString => true
  | String c rest => is_space c && blank rest
  end.

(** The claim as the specification words it: an empty or blank username
    is refused and no session is made; any other name gets the session
    and the ok. *)
Definition join_refuses_blank (st : State) (sid : string) (now : Z)
    (p : JoinPayload) (cb : bool) : Prop :=
  let r := on_join st sid now p cb in
  match join_username p with
  | Some name =>
      if blank name then
        ack r = reply cb ValidationError ∧ users (next r) = users st
      else
        ack r = reply cb AckOk
        ∧ users (next r) !! sid
          = Some (mkSession name (default "global" (join_room p)) now)
  | None => ack r = reply cb ValidationError ∧ users (next r) = users st
  end.

(** The room of a socket as the specification words it: the target of
    its most recent successful join or joinRoom, unless it has
    disconnected since.  [past] lists the operations most recent first;
    a join succeeds with a username, a joinRoom succeeds on a socket that
    has a room at that point. *)
Fixpoint spec_room_of (past : list PresenceOp) (sid : string)
    : option string :=
  match past with
  | [] => None
  | OpJoin s _ p _ :: earlier =>
      if (s =? sid) && js_truthy (join_username p)
      then Some (default "global" (join_room p))
      else spec_room_of earlier sid
  | OpJoinRoom s r _ :: earlier =>
      if s =? sid then
        match spec_room_of earlier sid with
        | Some _ => Some r
        | None => None
        end
      else spec_room_of earlier sid
  | OpDisconnect s :: earlier =>
      if s =? sid then None else spec_room_of earlier sid
  end.

(** ** Sample states and traces *)

Definition join_as (sid name r : string) : list Event :=
  [Connect sid; Join sid 0 (mkJoin (Some name) (Some r)) true].

(** alice on two devices (s1, s2) and bob (s3), all in "global". *)
Definition three_sockets : State :=
  Eval vm_compute in
  default init
    (run init (join_as "s1" "alice" "global" ++ join_as "s2" "alice" "global"
               ++ join_as "s3" "bob" "global")%list).

(** eve on s4 picked bob's socket id as her room name. *)
Definition with_eavesdropper : State :=
  Eval vm_compute in
  default init (run three_sockets (join_as "s4" "eve" "s3")).

(** alice (s1) is in "global" and has sent message m1; socket s9 is
    connected and has not joined. *)
Definition one_message : State :=
  Eval vm_compute in
  default init
    (run init (join_as "s1" "alice" "global"
               ++ [SendMessage "s1" "m1" 1 (mkSend (Some "hi") None false None)
                     true;
                   Connect "s9"])%list).

(** alice (s1) and bob (s2), both in "global". *)
Definition two_in_global : State :=
  Eval vm_compute in
  default init
    (run init (join_as "s1" "alice" "global"
               ++ join_as "s2" "bob" "global")%list).

(** Ids for sample messages: "m0", "m1", ... *)
Definition digit (n : nat) : string :=
  String (Ascii.ascii_of_nat (48 + n)) "".

Definition sample_id (n : nat) : string :=
  "m" ++ (if (n <? 10)%nat then digit n
          else digit (n / 10) ++ digit (n mod 10)).

(** alice joins "global" and sends 45 public messages, at times 0..44. *)
Definition history45 : list Message :=
  Eval vm_compute in
  messages
    (default init
       (run init
          (join_as "s1" "alice" "global"
           ++ List.map
                (λ i, SendMessage "s1" (sample_id i) (Z.of_nat i)
                        (mkSend (Some "x") None false None) true)
                (seq 0 45))%list)).

Definition page_of (p : Z) : HistoryPage :=
  get_messages history45
    (mkQuery (Some "global") (Some p) (Some 20%Z) false None None).

(** alice joins "global", bob joins "dev", alice moves to "dev", carl
    tries to change room without having joined, bob leaves. *)
Definition presence_trace : list PresenceOp :=
  [OpJoin "s1" 0 (mkJoin (Some "alice") None) true;
   OpJoin "s2" 1 (mkJoin (Some "bob") (Some "dev")) true;
   OpJoinRoom "s1" "dev" true;
   OpJoinRoom "s3" "dev" true;
   OpDisconnect "s2"].

(** A run of events that all return, from the initial state: both
    sockets join, alice sends two messages, bob reacts to one and reads
    the other, alice leaves. *)
Definition chat_trace : list Event :=
  (join_as "s1" "alice" "global" ++ join_as "s2" "bob" "global"
   ++ [SendMessage "s1" "m1" 1 (mkSend (Some "hi") None false None) true;
       SendMessage "s1" "m2" 2 (mkSend (Some "psst") None true (Some "bob"))
         true;
       React "s2" "m1" "heart" true;
       ReadMessage "s2" "m2" true;
       Disconnect "s1"])%list.

Definition chat_state : State :=
  Eval vm_compute in default init (run init chat_trace).

(** carol (s1) is in "global" with dave (s2); s3 is connected and has
    not joined. *)
Definition carol_and_dave : State :=
  Eval vm_compute in
  default init
    (run init (join_as "s1" "carol" "global" ++ join_as "s2" "dave" "global"
               ++ [Connect "s3"])%list).

(** ** Further views of the tables *)

(** A stored message and a later state of it: the fields fixed at send
    time are the same, [reactions] and [readBy] are extended at the
    end. *)
Definition grown_from (m m' : Message) : Prop :=
  frozen m' = frozen m
  ∧ (∃ rs, reactions m' = (reactions m ++ rs)%list)
  ∧ (∃ ns, readBy m' = (readBy m ++ ns)%list).

(** A store and a later state of it: the old messages in place, each
    grown, then the messages pushed since. *)
Definition store_grown_from (ms ms' : list Message) : Prop :=
  ∃ old added, ms' = (old ++ added)%list ∧ Forall2 grown_from ms old.

(** [three_sockets] with eve (s4), who picked the id of alice's socket
    s1 as her room name. *)
Definition sender_room_shared : State :=
  Eval vm_compute in
  default init (run three_sockets (join_as "s4" "eve" "s1")).

(** [three_sockets] with carl (s5) and eve (s4), who picked the id of
    carl's socket as her room name. *)
Definition bystander_room_shared : State :=
  Eval vm_compute in
  default init
    (run three_sockets
       (join_as "s5" "carl" "global" ++ join_as "s4" "eve" "s5")%list).

(** alice joins "global" and bob joins "dev"; then rooms are posted (one
    new, one known, one without a name), carl joins "ops" and alice
    changes to "lab". *)
Definition directory_start : list Event :=
  (join_as "s1" "alice" "global" ++ join_as "s2" "bob" "dev")%list.

Definition directory_trace : list Event :=
  [PostRooms (Some "design"); PostRooms (Some "dev"); PostRooms None;
   Connect "s3"; Join "s3" 2 (mkJoin (Some "carl") (Some "ops")) true;
   JoinRoom "s1" "lab" true].

Definition two_rooms : State :=
  Eval vm_compute in default init (run init directory_start).

Definition two_rooms_later : State :=
  Eval vm_compute in default init (run two_rooms directory_trace).

(** alice sends m1; bob reads it twice, alice reads it, and both read it
    once more. *)
Definition read_trace : list Event :=
  (join_as "s1" "alice" "global" ++ join_as "s2" "bob" "global"
   ++ [SendMessage "s1" "m1" 1 (mkSend (Some "hi") None false None) true;
       ReadMessage "s2" "m1" true; ReadMessage "s2" "m1" true;
       ReadMessage "s1" "m1" true; ReadMessage "s2" "m1" true;
       ReadMessage "s1" "m1" true])%list.

Definition read_state : State :=
  Eval vm_compute in default init (run init read_trace).

(** After [one_message]: alice reacts to m1 and reads it, then leaves. *)
Definition later_trace : list Event :=
  [React "s1" "m1" "heart" true; ReadMessage "s1" "m1" true;
   Disconnect "s1"].

Definition one_message_later : State :=
  Eval vm_compute in default init (run one_message later_trace).

(** Number.MAX_SAFE_INTEGER = 2^53 - 1 *)
Definition MAX_SAFE_INTEGER : Z := 9007199254740991.

(** The messages a query selects, in the order the handler puts them. *)
Definition history_of (ms : list Message) (q : HistoryQuery) : list Message :=
  sort_by_time (List.filter (history_filter q) ms).

(** The same query for another page. *)
Definition with_page (q : HistoryQuery) (p : Z) : HistoryQuery :=
  mkQuery (q_room q) (Some p) (q_limit q) (q_private q) (q_peer q)
    (q_requester q).

(** Pages k, k-1, ..., 1 of a query one after the other: what a client
    holds that has loaded k pages, each older page put in front. *)
Fixpoint pages_loaded (ms : list Message) (q : HistoryQuery) (k : nat)
    : list Message :=
  match k with
  | O => []
  | S k' =>
      (page_messages (get_messages ms (with_page q (Z.of_nat (S k'))))
       ++ pages_loaded ms q k')%list
  end.

(** The private conversation of two users, asked for by [requester]. *)
Definition private_query (peer requester : option string) : HistoryQuery :=
  mkQuery None None None true peer requester.

(** The sockets [update_audience] names for a private message with a
    recipient are each alone in the room of their id; nothing is asked
    for any other message. *)
Definition audience_rooms_intact (st : State) (msg : Message) : bool :=
  match isPrivate msg, or_null (msg_to msg) with
  | true, Some rcpt => named_rooms_intact st [rcpt; sender msg]
  | _, _ => true
  end.

(** A private message to [u] from [k] that [u] has not read. *)
Definition unread_private_from (u : Session) (k : string) (m : Message)
    : bool :=
  isPrivate m && str_eq_opt (username u) (msg_to m)
  && negb (includes (username u) (readBy m)) && (sender m =? k).

(** A message of [u]'s current room, not flagged private, that [u] has
    not read. *)
Definition unread_public (u : Session) (m : Message) : bool :=
  negb (isPrivate m) && (msg_room m =? room u)
  && negb (includes (username u) (readBy m)).

(** The number getUnreadCounts reports under key [k]. *)
Definition unread_under (u : Session) (k : string) (ms : list Message)
    : nat :=
  length (List.filter (unread_private_from u k) ms)
  + (if k =? room u then length (List.filter (unread_public u) ms) else 0).

(** The sockets a reactionUpdate or readUpdate about [msg] is meant
    for: the sockets of both participants of a private message with a
    recipient, the socket.io room of the message otherwise. *)
Definition update_audience (st : State) (msg : Message) (c : string) : Prop :=
  match isPrivate msg, or_null (msg_to msg) with
  | true, Some rcpt =>
      ∃ v, users st !! c = Some v
           ∧ (username v = rcpt ∨ username v = sender msg)
  | _, _ => (c, msg_room msg) ∈ sio st
  end.

(** Names every JavaScript object inherits from Object.prototype: read
    as a key of the counts object, such a name does not start from an
    absent entry. *)
Definition prototype_keys : list string :=
  ["constructor"; "__proto__"; "hasOwnProperty"; "isPrototypeOf";
   "propertyIsEnumerable"; "toLocaleString"; "toString"; "valueOf";
   "__defineGetter__"; "__defineSetter__"; "__lookupGetter__";
   "__lookupSetter__"].

(** No sender and no room of the store bears such a name. *)
Definition plain_names (ms : list Message) : bool :=
  forallb (λ m, negb (includes (sender m) prototype_keys)
                && negb (includes (msg_room m) prototype_keys)) ms.

(** The pass of getUnreadCounts over one message. *)
Definition count_message (u : Session) (counts : gmap string nat)
    (m : Message) : gmap string nat :=
  if isPrivate m then
    if str_eq_opt (username u) (msg_to m)
       && negb (includes (username u) (readBy m))
    then bump (sender m) counts else counts
  else
    if (msg_room m =? room u) && negb (includes (username u) (readBy m))
    then bump (msg_room m) counts else counts.

(** ** The client component (first part of App.jsx)

    The state of the React component, the handlers of the form and the
    listeners of the socket.  A string is read as a sequence of code
    points below 256. *)

Record Client := mkClient {
  c_username : string;
  c_loggedIn : bool;
  c_room : string;
  c_message : string;
  c_messages : list Message;
  c_onlineUsers : list Session;
  c_typingUser : string;
  c_unreadCount : nat;
  c_isConnected : bool
}.

(** What the component emits on its socket; [cb] tells whether an
    acknowledgement callback is passed along. *)
Inductive ClientEmit :=
| EmitJoin (p : JoinPayload)
| EmitSendMessage (data : SendPayload) (cb : bool)
| EmitTyping (b : bool)
| EmitReact (messageId rn : string).

(** The white space String.prototype.trim strips, below code point 256:
    the ASCII ones and the no-break space. *)
Definition is_js_space (c : Ascii.ascii) : bool :=
  is_space c || (Ascii.nat_of_ascii c =? 160)%nat.

(** !s.trim(): nothing is left of a string of white space only *)
Fixpoint trims_to_empty (s : string) : bool :=
  match s with
  | EmptyString => true
  | String c rest => is_js_space c && trims_to_empty rest
  end.

(** handleLogin: refuses a blank username (the alert), otherwise emits
    join { username, room } without callback and sets loggedIn. *)
Definition handleLogin (c : Client) : Client * list ClientEmit :=
  if trims_to_empty (c_username c) then (c, [])
  else
    (mkClient (c_username c) true (c_room c) (c_message c) (c_messages c)
       (c_onlineUsers c) (c_typingUser c) (c_unreadCount c)
       (c_isConnected c),
     [EmitJoin (mkJoin (Some (c_username c)) (Some (c_room c)))]).

(** sendMessage of the component: nothing for a blank message, otherwise
    socket.emit("sendMessage", { text: message }, cb) and
    setUnreadCount(0). *)
Definition client_sendMessage (c : Client) : Client * list ClientEmit :=
  if trims_to_empty (c_message c) then (c, [])
  else
    (mkClient (c_username c) (c_loggedIn c) (c_room c) (c_message c)
       (c_messages c) (c_onlineUsers c) (c_typingUser c) 0
       (c_isConnected c),
     [EmitSendMessage (mkSend (Some (c_message c)) None false None) true]).

(** handleTyping: setMessage(value) and
    socket.emit("typing", value.length > 0). *)
Definition handleTyping (c : Client) (value : string)
    : Client * list ClientEmit :=
  (mkClient (c_username c) (c_loggedIn c) (c_room c) value (c_messages c)
     (c_onlineUsers c) (c_typingUser c) (c_unreadCount c) (c_isConnected c),
   [EmitTyping (negb (value =? ""))]).

(** handleFileUpload, once the upload has answered with [url]:
    socket.emit("sendMessage", { text: `[File] ${url}` }). *)
Definition handleFileUpload (url : string) : list ClientEmit :=
  [EmitSendMessage (mkSend (Some ("[File] " ++ url)) None false None) false].

(** handleReaction *)
Definition handleReaction (msgId rn : string) : list ClientEmit :=
  [EmitReact msgId rn].

(** The listeners registered in useEffect: receiveMessage, onlineUsers,
    typing and reactionUpdate.  No listener is registered for
    privateMessage, readUpdate and notification. *)
Definition client_receive (ev : ServerEvent) (c : Client) : Client :=
  match ev with
  | EvReceiveMessage msg =>
      mkClient (c_username c) (c_loggedIn c) (c_room c) (c_message c)
        (push (c_messages c) msg) (c_onlineUsers c) (c_typingUser c)
        (c_unreadCount c + 1) (c_isConnected c)
  | EvOnlineUsers l =>
      mkClient (c_username c) (c_loggedIn c) (c_room c) (c_message c)
        (c_messages c) l (c_typingUser c) (c_unreadCount c) (c_isConnected c)
  | EvTyping uname isTyping _ =>
      mkClient (c_username c) (c_loggedIn c) (c_room c) (c_message c)
        (c_messages c) (c_onlineUsers c) (if isTyping then uname else "")
        (c_unreadCount c) (c_isConnected c)
  | EvReactionUpdate msg =>
      mkClient (c_username c) (c_loggedIn c) (c_room c) (c_message c)
        (List.map (λ m, if msg_id m =? msg_id msg then msg else m)
           (c_messages c))
        (c_onlineUsers c) (c_typingUser c) (c_unreadCount c)
        (c_isConnected c)
  | EvPrivateMessage _ | EvNotification _ | EvReadUpdate _ => c
  end.

(** The typing handler of the server reads [data.isTyping],
    [data.isPrivate] and [data.to]; on the boolean the component sends
    all three are undefined. *)
Definition typing_of_boolean (b : bool) : TypingPayload :=
  mkTyping false false None.

(** An emission of the component as the event the server handles, on
    socket [sid]; [uuid] and [now] are what the server draws for it. *)
Definition to_server (sid uuid : string) (now : Z) (e : ClientEmit) : Event :=
  match e with
  | EmitJoin p => Join sid now p false
  | EmitSendMessage data cb => SendMessage sid uuid now data cb
  | EmitTyping b => Typing sid (typing_of_boolean b)
  | EmitReact mid rn => React sid mid rn false
  end.

(** s.split(sep) for a one-character separator *)
Fixpoint split_on (sep : Ascii.ascii) (s : string) : list string :=
  match s with
  | EmptyString => [EmptyString]
  | String c rest =>
      if Ascii.eqb c sep then EmptyString :: split_on sep rest
      else
        match split_on sep rest with
        | tok :: toks => String c tok :: toks
        | [] => [String c EmptyString]
        end
  end.

(** The link of a rendered message: when m.text.startsWith("[File]"),
    the href is m.text.split(" ")[1]. *)
Definition file_href (txt : string) : option string :=
  if String.prefix "[File]" txt then nth_error (split_on Ascii.Space txt) 1
  else None.

(** s.includes(c) for a character *)
Fixpoint has_char (c : Ascii.ascii) (s : string) : bool :=
  match s with
  | EmptyString => false
  | String d rest => Ascii.eqb d c || has_char c rest
  end.

(** ** Basic facts: JavaScript helpers and socket.io *)

Lemma includes_In (x : string) (arr : list string) :
  includes x arr = true ↔ In x arr.
Proof.
  unfold includes. rewrite existsb_exists. split.
  - intros (y & Hy & Heq). apply String.eqb_eq in Heq. by subst.
  - intros H. exists x. split; [done | apply String.eqb_refl].
Qed.

Lemma includes_false (x : string) (arr : list string) :
  includes x arr = false ↔ ¬ In x arr.
Proof.
  rewrite <- includes_In. destruct (includes x arr); intuition congruence.
Qed.

Lemma same_set_spec (l1 l2 : list string) :
  same_set l1 l2 = true ↔ ∀ x, In x l1 ↔ In x l2.
Proof.
  unfold same_set. rewrite andb_true_iff, !forallb_forall. split.
  - intros [H1 H2] x. split; intros Hx.
    + apply includes_In, H1, Hx.
    + apply includes_In, H2, Hx.
  - intros H. split; intros x Hx; apply includes_In, H, Hx.
Qed.

Lemma or_null_Some (v : option string) (s : string) :
  or_null v = Some s ↔ v = Some s ∧ s ≠ "".
Proof.
  unfold or_null, truthy. destruct v as [t|]; [|intuition congruence].
  destruct (String.eqb_spec t ""); simpl; intuition congruence.
Qed.

Lemma or_null_None (v : option string) :
  or_null v = None ↔ v = None ∨ v = Some "".
Proof.
  unfold or_null, truthy. destruct v as [t|]; [|intuition congruence].
  destruct (String.eqb_spec t ""); simpl; intuition congruence.
Qed.

Lemma In_members (c r : string) (a : gset (string * string)) :
  In c (members r a) ↔ (c, r) ∈ a.
Proof.
  unfold members. rewrite in_map_iff. split.
  - intros ([c' r'] & Hc & Hin). simpl in Hc. subst c'.
    apply list_elem_of_In, elem_of_elements, elem_of_filter in Hin.
    destruct Hin as [Hr Hin]. simpl in Hr. by subst r'.
  - intros Hin. exists (c, r). split; [done|].
    apply list_elem_of_In, elem_of_elements, elem_of_filter. done.
Qed.

Lemma In_io_to_emit (a : gset (string * string)) (r c : string)
    (ev ev' : ServerEvent) :
  In (c, ev') (io_to_emit a r ev) ↔ ev' = ev ∧ (c, r) ∈ a.
Proof.
  unfold io_to_emit. rewrite in_map_iff. split.
  - intros (c' & Heq & Hin). inversion Heq; subst.
    split; [done | by apply In_members].
  - intros [-> Hin]. exists c. split; [done | by apply In_members].
Qed.

Lemma receivers_io_to_emit (a : gset (string * string)) (r : string)
    (ev : ServerEvent) :
  receivers (io_to_emit a r ev) = members r a.
Proof.
  unfold receivers, io_to_emit. rewrite List.map_map. simpl.
  apply List.map_id.
Qed.

Lemma In_map_to_list (us : gmap string Session) (sid : string) (u : Session) :
  In (sid, u) (map_to_list us) ↔ us !! sid = Some u.
Proof. rewrite <- list_elem_of_In. apply elem_of_map_to_list. Qed.

Lemma In_entries_named (us : gmap string Session) (name sid : string)
    (u : Session) :
  In (sid, u) (entries_named us name) ↔ us !! sid = Some u ∧ username u = name.
Proof.
  unfold entries_named. rewrite filter_In, In_map_to_list. simpl.
  by rewrite String.eqb_eq.
Qed.

Lemma In_onlineUsersInRoom (us : gmap string Session) (r : string)
    (u : Session) :
  In u (onlineUsersInRoom us r) ↔ ∃ sid, us !! sid = Some u ∧ room u = r.
Proof.
  unfold onlineUsersInRoom. rewrite filter_In, in_map_iff, String.eqb_eq.
  split.
  - intros [([sid v] & Hv & Hin) Hr]. simpl in Hv. subst v.
    exists sid. by rewrite <- In_map_to_list.
  - intros (sid & Hsid & Hr). split; [|done].
    exists (sid, u). by rewrite In_map_to_list.
Qed.

Lemma own_rooms_intact_spec (st : State) :
  own_rooms_intact st = true ↔
  ∀ sid u, users st !! sid = Some u →
           ∀ c, (c, sid) ∈ sio st ↔ c = sid.
Proof.
  unfold own_rooms_intact. rewrite forallb_forall. split.
  - intros H sid u Hu c. apply In_map_to_list, H in Hu. simpl in Hu.
    rewrite same_set_spec in Hu. rewrite <- In_members, Hu. simpl.
    intuition congruence.
  - intros H [sid u] Hin. apply In_map_to_list in Hin. simpl.
    apply same_set_spec. intros c. rewrite In_members, (H sid u Hin).
    simpl. intuition congruence.
Qed.

Lemma named_rooms_intact_spec (st : State) (names : list string) :
  named_rooms_intact st names = true ↔
  ∀ sid u, users st !! sid = Some u → In (username u) names →
           ∀ c, (c, sid) ∈ sio st ↔ c = sid.
Proof.
  unfold named_rooms_intact. rewrite forallb_forall. split.
  - intros H sid u Hu Hname c. apply In_map_to_list, H in Hu. simpl in Hu.
    apply includes_In in Hname. rewrite Hname in Hu. simpl in Hu.
    rewrite same_set_spec in Hu. rewrite <- In_members, Hu. simpl.
    intuition congruence.
  - intros H [sid u] Hin. apply In_map_to_list in Hin. simpl.
    destruct (includes (username u) names) eqn:Hname; [|done]. simpl.
    apply includes_In in Hname.
    apply same_set_spec. intros c. rewrite In_members, (H sid u Hin Hname).
    simpl. intuition congruence.
Qed.

Lemma In_receivers (c : string) (out : list (string * ServerEvent)) :
  In c (receivers out) ↔ ∃ ev, In (c, ev) out.
Proof.
  unfold receivers. rewrite in_map_iff. split.
  - intros ([c' ev] & Hc & Hin). simpl in Hc. subst. by exists ev.
  - intros [ev Hin]. by exists (c, ev).
Qed.

(** ** Private messages (C1) *)

(** The emissions of a private send: one [io.to(sid)] per session of the
    recipient, then [socket.emit] to the sending socket. *)
Lemma sendMessage_private (st : State) (sid uuid : string) (now : Z)
    (data : SendPayload) (cb : bool) (u : Session) (rcpt : string) :
  users st !! sid = Some u →
  send_isPrivate data = true →
  or_null (send_to data) = Some rcpt →
  on_sendMessage st sid uuid now data cb =
    let msg := new_message u uuid now data in
    mkResult (mkState (users st) (push (messages st) msg) (rooms st) (sio st))
      (flat_map (λ e, io_to_emit (sio st) e.1 (EvPrivateMessage msg))
         (entries_named (users st) rcpt)
       ++ socket_emit sid (EvPrivateMessage msg))%list
      (reply cb (AckDelivered uuid)).
Proof.
  intros Hu Hp Hto. unfold on_sendMessage. rewrite Hu. simpl.
  by rewrite Hp, Hto.
Qed.

(** C1, against the claim: alice is on s1 and s2 and sends bob a private
    message from s1; her other socket s2 receives nothing. *)
Lemma C1_sender_other_device_not_reached :
  ¬ private_reaches_both_users three_sockets "s1" "m1" 10
      (mkSend (Some "hi") None true (Some "bob")) true.
Proof.
  intros H.
  assert (H1 : users three_sockets !! "s1" = Some (mkSession "alice" "global" 0))
    by (vm_compute; reflexivity).
  assert (H2 : users three_sockets !! "s2" = Some (mkSession "alice" "global" 0))
    by (vm_compute; reflexivity).
  pose proof (proj2 (H _ "bob" H1 eq_refl eq_refl "s2")
                (ex_intro _ _ (conj H2 (or_intror eq_refl)))) as Hs2.
  apply includes_In in Hs2. vm_compute in Hs2. discriminate.
Qed.

(** C1 (as the code has it): a private message from socket [sid] to
    [rcpt] is stored once and emitted as [privateMessage] to every socket
    with a session of [rcpt] and to the sending socket itself, and to no
    other socket -- the sender's other sockets included -- as long as no
    other socket sits in a recipient's own socket.io room. *)
Theorem C1_private_delivery (st : State) (sid uuid : string) (now : Z)
    (data : SendPayload) (cb : bool) (u : Session) (rcpt : string) :
  users st !! sid = Some u →
  send_isPrivate data = true →
  or_null (send_to data) = Some rcpt →
  named_rooms_intact st [rcpt] = true →
  let r := on_sendMessage st sid uuid now data cb in
  let msg := new_message u uuid now data in
  messages (next r) = push (messages st) msg
  ∧ (∀ c ev, In (c, ev) (emitted r) → ev = EvPrivateMessage msg)
  ∧ (∀ c, In c (receivers (emitted r))
          ↔ c = sid ∨ ∃ v, users st !! c = Some v ∧ username v = rcpt).
Proof.
  intros Hu Hp Hto Hown r msg. subst r.
  rewrite (sendMessage_private st sid uuid now data cb u rcpt Hu Hp Hto).
  cbn zeta. fold msg. simpl next. simpl emitted.
  rewrite named_rooms_intact_spec in Hown.
  assert (Hrc : ∀ v, username v = rcpt → In (username v) [rcpt])
    by (intros v ->; by left).
  assert (Hflat : ∀ c ev,
    In (c, ev) (flat_map (λ e, io_to_emit (sio st) e.1 (EvPrivateMessage msg))
                  (entries_named (users st) rcpt))
    ↔ ev = EvPrivateMessage msg
      ∧ ∃ v, users st !! c = Some v ∧ username v = rcpt).
  { intros c ev. rewrite in_flat_map. split.
    - intros ([s v] & Hin & Hem). apply In_entries_named in Hin.
      destruct Hin as [Hv Hname]. apply In_io_to_emit in Hem.
      destruct Hem as [-> Hc]. simpl in Hc.
      apply (Hown s v Hv (Hrc v Hname)) in Hc. subst c. eauto.
    - intros [-> (v & Hv & Hname)]. exists (c, v). split.
      + by apply In_entries_named.
      + apply In_io_to_emit. split; [done|]. simpl.
        by apply (Hown c v Hv (Hrc v Hname)). }
  split; [done|]. split.
  - intros c ev Hin. apply in_app_iff in Hin. destruct Hin as [Hin|Hin].
    + by apply Hflat in Hin as [-> _].
    + destruct Hin as [Heq|[]]. by inversion Heq.
  - intros c. rewrite In_receivers. split.
    + intros [ev Hin]. apply in_app_iff in Hin. destruct Hin as [Hin|Hin].
      * right. by apply Hflat in Hin as [_ ?].
      * left. destruct Hin as [Heq|[]]. by inversion Heq.
    + intros [->|Hv]; exists (EvPrivateMessage msg); apply in_app_iff.
      * right. by left.
      * left. by apply Hflat.
Qed.

(** C1 at work: alice (s1, s2) writes to bob (s3) from s1 while eve
    sits in the socket.io room named by s1.  The room of bob's socket is
    his alone, which is all the proviso asks: the message reaches s3 and
    s1, not s2 and not eve. *)
Lemma C1_private_delivery_witness :
  let st := sender_room_shared in
  let data := mkSend (Some "hi") None true (Some "bob") in
  let r := on_sendMessage st "s1" "m1" 10 data true in
  (users st !! "s1" = Some (mkSession "alice" "global" 0)
   ∧ send_isPrivate data = true
   ∧ or_null (send_to data) = Some "bob"
   ∧ named_rooms_intact st ["bob"] = true)
  ∧ own_rooms_intact st = false
  ∧ same_set (receivers (emitted r)) ["s3"; "s1"] = true
  ∧ ∀ c, In c (receivers (emitted r))
         ↔ c = "s1" ∨ ∃ v, users st !! c = Some v ∧ username v = "bob".
Proof.
  intros st data r.
  assert (Hu : users st !! "s1" = Some (mkSession "alice" "global" 0))
    by (vm_compute; reflexivity).
  assert (Hown : named_rooms_intact st ["bob"] = true)
    by (vm_compute; reflexivity).
  split; [exact (conj Hu (conj eq_refl (conj eq_refl Hown)))|].
  split; [vm_compute; reflexivity|]. split; [vm_compute; reflexivity|].
  exact (proj2 (proj2
           (C1_private_delivery st "s1" "m1" 10 data true
              (mkSession "alice" "global" 0) "bob" Hu eq_refl eq_refl
              Hown))).
Defined.

(** Without the proviso of C1 the message leaks: [io.to("s3")] addresses
    a socket.io room, and eve's socket sits in it. *)
Example private_message_foreign_member :
  let r := on_sendMessage with_eavesdropper "s1" "m1" 10
             (mkSend (Some "hi") None true (Some "bob")) true in
  own_rooms_intact with_eavesdropper = false
  ∧ (username <$> users with_eavesdropper !! "s4") = Some "eve"
  ∧ same_set (receivers (emitted r)) ["s1"; "s3"; "s4"] = true.
Proof. vm_compute. repeat split; reflexivity. Qed.

(** ** Operations before join (C2) *)

(** C2, against the claim: on the unjoined socket s9, typing is not
    acknowledged at all, readMessage of a stored message is acknowledged
    with ok, and react on a stored message throws. *)
Lemma C2_unjoined_not_rejected :
  users one_message !! "s9" = None
  ∧ ¬ rejected_as_unjoined one_message
        (Typing "s9" (mkTyping true false None))
  ∧ ¬ rejected_as_unjoined one_message (ReadMessage "s9" "m1" true)
  ∧ ¬ rejected_as_unjoined one_message (React "s9" "m1" "heart" true).
Proof.
  split; [vm_compute; reflexivity|].
  repeat split; intros (r & Hstep & Hack & _).
  - cbn [step] in Hstep. injection Hstep as <-.
    vm_compute in Hack. discriminate.
  - cbn [step] in Hstep. injection Hstep as <-.
    vm_compute in Hack. discriminate.
  - vm_compute in Hstep. discriminate.
Qed.

Lemma react_unjoined_throws (st : State) (sid mid rn : string) (cb : bool)
    (m : Message) :
  users st !! sid = None →
  find_message mid (messages st) = Some m →
  on_react st sid mid rn cb = Thrown "TypeError".
Proof. intros Hu Hm. unfold on_react. by rewrite Hm, Hu. Qed.

(** C2 (as the code has it): on a socket without a session, sendMessage
    and joinRoom are acknowledged with the not-joined error, typing
    returns silently, readMessage is acknowledged with ok (or with the
    not-found error when the id is unknown), react on an unknown id is
    acknowledged with the not-found error; none of them changes the
    state. *)
Theorem C2_unjoined_operations (st : State) (sid : string) :
  users st !! sid = None →
  (∀ uuid now data cb,
     on_sendMessage st sid uuid now data cb
     = mkResult st [] (reply cb NotJoinedError))
  ∧ (∀ r cb, on_joinRoom st sid r cb = mkResult st [] (reply cb NotJoinedError))
  ∧ (∀ data, on_typing st sid data = mkResult st [] None)
  ∧ (∀ mid cb,
       next (on_readMessage st sid mid cb) = st
       ∧ ack (on_readMessage st sid mid cb)
         = reply cb (match find_message mid (messages st) with
                     | Some _ => AckOk
                     | None => NotFoundError
                     end))
  ∧ (∀ mid rn cb,
       find_message mid (messages st) = None →
       on_react st sid mid rn cb
       = Returned (mkResult st [] (reply cb NotFoundError))).
Proof.
  intros Hu. repeat split.
  - intros. unfold on_sendMessage. by rewrite Hu.
  - intros. unfold on_joinRoom. by rewrite Hu.
  - intros. unfold on_typing. by rewrite Hu.
  - unfold on_readMessage. rewrite Hu. simpl.
    by destruct (find_message mid (messages st)).
  - unfold on_readMessage. rewrite Hu. simpl.
    by destruct (find_message mid (messages st)).
  - intros mid rn cb Hm. unfold on_react. by rewrite Hm.
Qed.

(** C2 at work: socket s9 has not joined. *)
Lemma C2_unjoined_operations_witness :
  users one_message !! "s9" = None
  ∧ on_joinRoom one_message "s9" "dev" true
    = mkResult one_message [] (Some NotJoinedError)
  ∧ on_sendMessage one_message "s9" "m2" 2 (mkSend (Some "yo") None false None)
      true
    = mkResult one_message [] (Some NotJoinedError).
Proof.
  assert (H : users one_message !! "s9" = None) by (vm_compute; reflexivity).
  split; [exact H|].
  destruct (C2_unjoined_operations one_message "s9" H) as (Hs & Hj & _).
  split; [apply Hj | apply Hs].
Defined.

(** ** Changing room (C3, C4) *)

(** Whatever joinRoom emits goes to the new room: the first broadcast is
    addressed to [u.room] after [u.room = room]. *)
Lemma joinRoom_emits_to_new_room (st : State) (sid r : string) (cb : bool)
    (c : string) (ev : ServerEvent) :
  In (c, ev) (emitted (on_joinRoom st sid r cb)) →
  (c, r) ∈ sio (next (on_joinRoom st sid r cb)).
Proof.
  unfold on_joinRoom. destruct (users st !! sid) as [u|]; simpl; [|done].
  rewrite !in_app_iff, !In_io_to_emit. intros [[_ H]|[[_ H]|[_ H]]]; exact H.
Qed.

(** C3, at the failing input: bob (s2) moves from "global" to "dev" while
    alice (s1) stays in "global".  The three emissions all go to s2, the
    only socket in "dev"; s1, in the room bob leaves, receives nothing. *)
Theorem C3_old_room_not_notified :
  let r := on_joinRoom two_in_global "s2" "dev" true in
  (room <$> users two_in_global !! "s2") = Some "global"
  ∧ (room <$> users (next r) !! "s2") = Some "dev"
  ∧ members "global" (sio (next r)) = ["s1"]
  ∧ emitted r =
      [("s2", EvOnlineUsers [mkSession "bob" "dev" 0]);
       ("s2", EvOnlineUsers [mkSession "bob" "dev" 0]);
       ("s2", EvNotification "bob joined dev")]
  ∧ includes "s1" (receivers (emitted r)) = false.
Proof. vm_compute. repeat split; reflexivity. Qed.

(** join registers the room it targets. *)
Lemma join_registers_room (st : State) (sid : string) (now : Z)
    (p : JoinPayload) (cb : bool) (u : Session) :
  users (next (on_join st sid now p cb)) !! sid = Some u →
  users st !! sid ≠ Some u →
  In (room u) (rooms (next (on_join st sid now p cb))).
Proof.
  unfold on_join. destruct (or_null (join_username p)) as [name|]; simpl.
  - rewrite lookup_insert_eq. intros [= <-] _. simpl.
    destruct (includes _ _) eqn:Hinc.
    + by apply includes_In.
    + unfold push. apply in_app_iff. right. by left.
  - intros H1 H2. by rewrite H1 in H2.
Qed.

(** C4, at the failing input: alice joins the default room, then changes
    to "dev".  Her session now names "dev", and the room directory still
    holds "global" alone: joinRoom has no counterpart of the
    [rooms.push(room)] of join. *)
Theorem C4_joinRoom_room_not_registered :
  let st := run_ops init [OpJoin "s1" 0 (mkJoin (Some "alice") None) true;
                          OpJoinRoom "s1" "dev" true] in
  users st !! "s1" = Some (mkSession "alice" "dev" 0)
  ∧ rooms st = ["global"]
  ∧ includes "dev" (rooms st) = false.
Proof. vm_compute. repeat split; reflexivity. Qed.

(** The same change of room through join does register it. *)
Example join_new_room_registered :
  let st := run_ops init [OpJoin "s1" 0 (mkJoin (Some "alice") None) true;
                          OpJoin "s1" 1 (mkJoin (Some "alice") (Some "dev"))
                            true] in
  users st !! "s1" = Some (mkSession "alice" "dev" 1)
  ∧ rooms st = ["global"; "dev"].
Proof. vm_compute. repeat split; reflexivity. Qed.

Lemma apply_op_rooms_cover (st : State) (op : PresenceOp) :
  is_joinRoom op = false →
  rooms_cover_sessions st → rooms_cover_sessions (apply_op st op).
Proof.
  unfold rooms_cover_sessions.
  destruct op as [s now p cb|s r cb|s]; simpl; intros Hop Hinv; [|done|].
  - unfold on_join. destruct (or_null (join_username p)) as [name|]; simpl;
      [|exact Hinv].
    assert (Hsub : ∀ x, In x (rooms st) →
              In x (if includes (default "global" (join_room p)) (rooms st)
                    then rooms st
                    else push (rooms st) (default "global" (join_room p)))).
    { intros x Hx. destruct (includes _ _); [done|].
      unfold push. apply in_app_iff. by left. }
    intros sid u. destruct (decide (s = sid)) as [->|Hne].
    + rewrite lookup_insert_eq. intros [= <-]. simpl.
      destruct (includes _ _) eqn:Hinc; [by apply includes_In|].
      unfold push. apply in_app_iff. right. by left.
    + rewrite lookup_insert_ne by done. intros Hu. by eapply Hsub, Hinv.
  - unfold close_socket, on_disconnect. simpl.
    destruct (users st !! s) as [v|]; simpl; [|exact Hinv].
    intros sid u Hu. apply lookup_delete_Some in Hu as [_ Hu].
    by eapply Hinv.
Qed.

(** Sequences of join and disconnect alone keep every session's room in
    the room directory; only joinRoom breaks it. *)
Lemma rooms_cover_without_joinRoom (ops : list PresenceOp) :
  forallb (λ op, negb (is_joinRoom op)) ops = true →
  rooms_cover_sessions (run_ops init ops).
Proof.
  assert (Hgen : ∀ st, rooms_cover_sessions st →
            forallb (λ op, negb (is_joinRoom op)) ops = true →
            rooms_cover_sessions (run_ops st ops)).
  { induction ops as [|op ops IH]; simpl; intros st Hinv Hall; [done|].
    apply andb_true_iff in Hall as [Hop Hall].
    apply IH; [|done]. apply apply_op_rooms_cover; [|done].
    by destruct (is_joinRoom op). }
  intros Hall. apply Hgen; [|done].
  intros sid u Hu. simpl in Hu. by rewrite lookup_empty in Hu.
Qed.

(** ** History pages (C5) *)

(** The scenario of the specification: page 1 holds indices 25-44,
    page 3 the five oldest. *)
Example history45_pages_1_and_3 :
  List.map timestamp (page_messages (page_of 1))
  = List.map Z.of_nat (seq 25 20)
  ∧ List.map timestamp (page_messages (page_of 3))
    = List.map Z.of_nat (seq 0 5)
  ∧ total (page_of 1) = 45 ∧ total (page_of 3) = 45.
Proof. vm_compute. repeat split; reflexivity. Qed.

(** C5, at the failing input: 45 messages, pages of 20.  Pages 1 to 3
    cover the whole history, nothing remains for page 4; the handler
    computes end = 45 - 60 = -15, and [slice(0, -15)] is the first 30
    messages. *)
Theorem C5_page_past_the_end_not_empty :
  total (page_of 4) = 45
  ∧ length (page_messages (page_of 4)) = 30
  ∧ List.map timestamp (page_messages (page_of 4))
    = List.map Z.of_nat (seq 0 30).
Proof. vm_compute. repeat split; reflexivity. Qed.

Lemma js_slice_in_range {A} (arr : list A) (s e : Z) :
  (0 ≤ s)%Z → (s ≤ e)%Z → (e ≤ Z.of_nat (length arr))%Z →
  js_slice arr s e = take (Z.to_nat e - Z.to_nat s) (drop (Z.to_nat s) arr).
Proof.
  intros Hs Hse He. unfold js_slice.
  destruct (Z.ltb_spec s 0); [lia|]. destruct (Z.ltb_spec e 0); [lia|].
  rewrite !Z.min_l by lia. f_equal. lia.
Qed.

Lemma length_insert_by_time (m : Message) (l : list Message) :
  length (insert_by_time m l) = S (length l).
Proof.
  induction l as [|x l IH]; simpl; [done|].
  destruct (timestamp m <=? timestamp x)%Z; simpl; by rewrite ?IH.
Qed.

Lemma insert_by_time_perm (m : Message) (l : list Message) :
  insert_by_time m l ≡ₚ m :: l.
Proof.
  induction l as [|x l IH]; simpl; [done|].
  destruct (timestamp m <=? timestamp x)%Z; [done|].
  rewrite IH. apply Permutation_swap.
Qed.

Lemma sort_by_time_perm (l : list Message) : sort_by_time l ≡ₚ l.
Proof.
  induction l as [|m l IH]; simpl; [done|].
  by rewrite insert_by_time_perm, IH.
Qed.

Lemma insert_by_time_sorted (m : Message) (l : list Message) :
  StronglySorted by_time l → StronglySorted by_time (insert_by_time m l).
Proof.
  induction 1 as [|x l Hs IH Hx]; simpl.
  - repeat constructor.
  - destruct (Z.leb_spec (timestamp m) (timestamp x)).
    + constructor; [by constructor|]. constructor; [done|].
      eapply Forall_impl; [exact Hx|]. unfold by_time. intros; lia.
    + constructor; [done|].
      rewrite insert_by_time_perm. constructor; [|done].
      unfold by_time. lia.
Qed.

Lemma sort_by_time_sorted (l : list Message) :
  StronglySorted by_time (sort_by_time l).
Proof.
  induction l as [|m l IH]; simpl; [constructor|].
  by apply insert_by_time_sorted.
Qed.

(** Where the pages asked for so far do not run past the history
    ((page - 1) * limit <= N) the handler does return the page the
    specification describes: the slice [N - page*limit, N - (page-1)*limit)
    of the messages ordered oldest first, cut at 0. *)
Lemma get_messages_in_range (ms : list Message) (q : HistoryQuery)
    (p lim : Z) :
  q_page q = Some p → q_limit q = Some lim →
  (1 ≤ p)%Z → (1 ≤ lim)%Z →
  let sorted := sort_by_time (List.filter (history_filter q) ms) in
  let n := Z.of_nat (length sorted) in
  ((p - 1) * lim ≤ n)%Z →
  get_messages ms q
  = mkPage (take (Z.to_nat (n - (p - 1) * lim) - Z.to_nat (n - p * lim))
              (drop (Z.to_nat (n - p * lim)) sorted))
      (length sorted).
Proof.
  intros Hp Hl Hp1 Hl1 sorted n Hn. unfold get_messages.
  rewrite Hp, Hl. simpl default. fold sorted. fold n.
  rewrite (Z.max_r 1 p), (Z.max_r 1 lim) by lia. f_equal.
  rewrite js_slice_in_range by (fold n; nia).
  f_equal; [|f_equal]; lia.
Qed.

(** ** join (C6) *)

(** C6, against the claim: a username of one space is accepted. *)
Lemma C6_blank_username_accepted :
  ¬ join_refuses_blank init "s1" 0 (mkJoin (Some " ") None) true.
Proof.
  unfold join_refuses_blank. cbn [join_username blank is_space].
  intros H. vm_compute in H. destruct H as [H _]. discriminate.
Qed.

Example join_blank_username :
  let r := on_join init "s1" 0 (mkJoin (Some " ") None) true in
  users (next r) !! "s1" = Some (mkSession " " "global" 0)
  ∧ ack r = Some AckOk.
Proof. vm_compute. split; reflexivity. Qed.

Lemma filter_key_absent {V} (k : string) (l : list (string * V)) :
  ¬ In k (List.map fst l) → List.filter (λ e, e.1 =? k) l = [].
Proof.
  induction l as [|[k' v'] l IH]; simpl; [done|].
  intros Hn. destruct (String.eqb_spec k' k) as [->|Hne].
  - destruct Hn. by left.
  - apply IH. intros Hin. apply Hn. by right.
Qed.

Lemma filter_key_once {V} (k : string) (v : V) (l : list (string * V)) :
  List.NoDup (List.map fst l) → In (k, v) l →
  length (List.filter (λ e, e.1 =? k) l) = 1.
Proof.
  induction l as [|[k' v'] l IH]; simpl; [done|].
  intros Hnd Hin. apply NoDup_cons_iff in Hnd as [Hk' Hnd].
  destruct (String.eqb_spec k' k) as [->|Hne].
  - simpl. by rewrite filter_key_absent.
  - apply IH; [done|]. destruct Hin as [[= ? ?]|Hin]; [done|exact Hin].
Qed.

(** One entry per key in Object.entries(users). *)
Lemma one_entry_per_socket (us : gmap string Session) (sid : string)
    (u : Session) :
  us !! sid = Some u →
  length (List.filter (λ e, e.1 =? sid) (map_to_list us)) = 1.
Proof.
  intros Hu. apply (filter_key_once sid u).
  - pose proof (NoDup_fst_map_to_list us) as Hnd.
    by apply NoDup_ListNoDup in Hnd.
  - by apply In_map_to_list.
Qed.

(** C6 (as the code has it): join refuses a username that is missing
    or the empty string, with the "Username required" error and no change
    of state.  Every other username, blank ones included, is accepted:
    the session of this socket is set to the new record (an earlier one
    is overwritten, the socket has exactly one entry), the other sessions
    are untouched, and the acknowledgement is ok. *)
Theorem C6_join_validation (st : State) (sid : string) (now : Z)
    (p : JoinPayload) (cb : bool) :
  let r := on_join st sid now p cb in
  match join_username p with
  | None | Some EmptyString => r = mkResult st [] (reply cb ValidationError)
  | Some name =>
      users (next r)
      = <[sid := mkSession name (default "global" (join_room p)) now]>
          (users st)
      ∧ length (List.filter (λ e, e.1 =? sid) (map_to_list (users (next r))))
        = 1
      ∧ ack r = reply cb AckOk
  end.
Proof.
  unfold on_join. destruct (join_username p) as [[|c name]|]; simpl; try done.
  split; [done|]. split; [|done].
  eapply one_entry_per_socket. apply lookup_insert_eq.
Qed.

(** ** Presence (C7) *)

Lemma run_ops_snoc (st : State) (ops : list PresenceOp) (op : PresenceOp) :
  run_ops st (ops ++ [op]) = apply_op (run_ops st ops) op.
Proof. unfold run_ops. by rewrite fold_left_app. Qed.

(** The registry after one operation, socket by socket. *)
Lemma apply_op_room (st : State) (op : PresenceOp) (sid : string) :
  room <$> users (apply_op st op) !! sid =
  match op with
  | OpJoin s _ p _ =>
      if (s =? sid) && js_truthy (join_username p)
      then Some (default "global" (join_room p))
      else room <$> users st !! sid
  | OpJoinRoom s r _ =>
      if s =? sid then
        match room <$> users st !! sid with
        | Some _ => Some r
        | None => None
        end
      else room <$> users st !! sid
  | OpDisconnect s =>
      if s =? sid then None else room <$> users st !! sid
  end.
Proof.
  destruct op as [s now p cb|s r cb|s]; simpl.
  - unfold on_join, js_truthy.
    destruct (or_null (join_username p)) as [name|]; simpl.
    + destruct (String.eqb_spec s sid) as [->|Hne]; simpl.
      * by rewrite lookup_insert_eq.
      * by rewrite lookup_insert_ne.
    + by rewrite andb_false_r.
  - unfold on_joinRoom.
    destruct (String.eqb_spec s sid) as [->|Hne].
    + destruct (users st !! sid) as [u|] eqn:Hu; simpl.
      * by rewrite lookup_insert_eq.
      * by rewrite Hu.
    + destruct (users st !! s) as [u|]; simpl; [|done].
      by rewrite lookup_insert_ne.
  - unfold close_socket, on_disconnect. simpl.
    destruct (String.eqb_spec s sid) as [->|Hne].
    + destruct (users st !! sid) as [u|] eqn:Hu; simpl.
      * by rewrite lookup_delete_eq.
      * by rewrite Hu.
    + destruct (users st !! s) as [u|]; simpl; [|done].
      by rewrite lookup_delete_ne.
Qed.

(** The registry agrees with the specification's reading of the trace. *)
Lemma registry_tracks_spec (ops : list PresenceOp) (sid : string) :
  room <$> users (run_ops init ops) !! sid = spec_room_of (rev ops) sid.
Proof.
  induction ops as [|op ops IH] using rev_ind; [done|].
  rewrite run_ops_snoc, rev_unit, apply_op_room.
  destruct op as [s now p cb|s r cb|s]; simpl; by rewrite IH.
Qed.

Lemma sio_leave_all_twice (sid : string) (a : gset (string * string)) :
  sio_leave_all sid (sio_leave_all sid a) = sio_leave_all sid a.
Proof.
  unfold sio_leave_all. apply set_eq. intros x.
  rewrite !elem_of_filter. tauto.
Qed.

(** Closing a socket a second time changes nothing and emits nothing. *)
Lemma close_socket_twice (st : State) (sid : string) :
  let once := close_socket st sid in
  close_socket (next once) sid = mkResult (next once) [] None.
Proof.
  unfold close_socket, on_disconnect, with_sio. simpl.
  destruct (users st !! sid) as [u|] eqn:Hu; simpl.
  - rewrite lookup_delete_eq. by rewrite sio_leave_all_twice.
  - rewrite Hu. by rewrite sio_leave_all_twice.
Qed.

Lemma onlineUsersInRoom_entries (us : gmap string Session) (r : string) :
  onlineUsersInRoom us r = List.map snd (entries_in_room us r).
Proof.
  unfold onlineUsersInRoom, entries_in_room.
  induction (map_to_list us) as [|[k v] l IH]; simpl; [done|].
  destruct (room v =? r); simpl; by rewrite IH.
Qed.

Lemma NoDup_filter_keys {V} (f : string * V → bool) (l : list (string * V)) :
  List.NoDup (List.map fst l) → List.NoDup (List.map fst (List.filter f l)).
Proof.
  induction l as [|e l IH]; simpl; [done|].
  intros Hnd. apply NoDup_cons_iff in Hnd as [Hk Hnd].
  destruct (f e); simpl; [|by apply IH].
  apply NoDup_cons_iff. split; [|by apply IH].
  intros Hin. apply Hk. apply in_map_iff in Hin as (e' & He' & Hin).
  apply in_map_iff. exists e'. split; [done|].
  by apply filter_In in Hin as [? _].
Qed.

Example presence_trace_rooms :
  let st := run_ops init presence_trace in
  onlineUsersInRoom (users st) "dev" = [mkSession "alice" "dev" 0]
  ∧ onlineUsersInRoom (users st) "global" = []
  ∧ List.map (spec_room_of (rev presence_trace)) ["s1"; "s2"; "s3"]
    = [Some "dev"; None; None].
Proof. vm_compute. repeat split; reflexivity. Qed.

(** C7: after any sequence of join, joinRoom and disconnect from the
    initial state, and for every room r, the sessions returned by
    onlineUsersInRoom(r) are, one for one, the sessions of the sockets
    whose most recent successful join or joinRoom targeted r and that
    have not disconnected since, each with r as its room; a second
    disconnect of a socket changes neither the state nor that list, and
    emits nothing. *)
Theorem C7_listInRoom_exact (ops : list PresenceOp) (r : string) :
  let st := run_ops init ops in
  (∃ sids : list string,
     List.NoDup sids
     ∧ (∀ sid, In sid sids ↔ spec_room_of (rev ops) sid = Some r)
     ∧ Forall2 (λ sid u, users st !! sid = Some u ∧ room u = r) sids
         (onlineUsersInRoom (users st) r))
  ∧ (∀ sid,
       let once := apply_op st (OpDisconnect sid) in
       apply_op once (OpDisconnect sid) = once
       ∧ emitted (close_socket once sid) = []
       ∧ onlineUsersInRoom (users (apply_op once (OpDisconnect sid))) r
         = onlineUsersInRoom (users once) r).
Proof.
  intros st. split.
  - exists (List.map fst (entries_in_room (users st) r)). split; [|split].
    + apply NoDup_filter_keys.
      pose proof (NoDup_fst_map_to_list (users st)) as Hnd.
      by apply NoDup_ListNoDup in Hnd.
    + intros sid. rewrite <- registry_tracks_spec. fold st.
      unfold entries_in_room. rewrite in_map_iff. split.
      * intros ([k u] & Hk & Hin). simpl in Hk. subst k.
        apply filter_In in Hin as [Hin Hr]. apply In_map_to_list in Hin.
        simpl in Hr. apply String.eqb_eq in Hr. by rewrite Hin, <- Hr.
      * intros Hu. destruct (users st !! sid) as [u|] eqn:Hsid; [|done].
        simpl in Hu. injection Hu as Hr. exists (sid, u). split; [done|].
        apply filter_In. split; [by apply In_map_to_list|].
        simpl. by apply String.eqb_eq.
    + rewrite onlineUsersInRoom_entries.
      assert (Hall : ∀ e, In e (entries_in_room (users st) r) →
                          users st !! e.1 = Some e.2 ∧ room e.2 = r).
      { intros [k u] Hin. apply filter_In in Hin as [Hin Hr].
        split; [by apply In_map_to_list | by apply String.eqb_eq]. }
      induction (entries_in_room (users st) r) as [|e l IH]; simpl.
      * constructor.
      * constructor; [apply Hall; by left|].
        apply IH. intros e' He'. apply Hall. by right.
  - intros sid once. subst once. simpl apply_op.
    rewrite close_socket_twice. simpl. done.
Qed.

(** ** The message store (C8, C9) *)

Lemma find_message_unknown (mid : string) (ms : list Message) :
  includes mid (List.map msg_id ms) = false → find_message mid ms = None.
Proof.
  unfold find_message. induction ms as [|m ms IH]; simpl; [done|].
  rewrite String.eqb_sym. destruct (msg_id m =? mid); simpl; [done|exact IH].
Qed.

(** C8: for an id that no stored message carries, react and readMessage
    are acknowledged with the "Message not found" error, emit nothing and
    leave the whole state, the message store included, as it was. *)
Theorem C8_unknown_message_id (st : State) (sid mid rn : string) (cb : bool) :
  includes mid (List.map msg_id (messages st)) = false →
  on_react st sid mid rn cb
  = Returned (mkResult st [] (reply cb NotFoundError))
  ∧ on_readMessage st sid mid cb = mkResult st [] (reply cb NotFoundError).
Proof.
  intros Hmid. apply find_message_unknown in Hmid.
  unfold on_react, on_readMessage. by rewrite Hmid.
Qed.

(** C8 at work: the store holds m1 only, the id asked for is m7. *)
Lemma C8_unknown_message_id_witness :
  includes "m7" (List.map msg_id (messages one_message)) = false
  ∧ on_react one_message "s1" "m7" "heart" true
    = Returned (mkResult one_message [] (Some NotFoundError))
  ∧ on_readMessage one_message "s1" "m7" true
    = mkResult one_message [] (Some NotFoundError).
Proof.
  split; [vm_compute; reflexivity|].
  apply (C8_unknown_message_id one_message "s1" "m7" "heart" true).
  vm_compute; reflexivity.
Defined.

Lemma step_store_change (st : State) (ev : Event) (r : Result) :
  step st ev = Returned r → store_change (messages st) (messages (next r)).
Proof.
  destruct ev; simpl; intros Hstep; try (injection Hstep as <-).
  - constructor.
  - unfold on_join. destruct (or_null _); constructor.
  - unfold on_joinRoom. destruct (users st !! sid); constructor.
  - unfold on_sendMessage. destruct (users st !! sid); simpl.
    + by constructor.
    + constructor.
  - unfold on_typing. destruct (users st !! sid); constructor.
  - unfold on_react in Hstep.
    destruct (find_message messageId (messages st));
      [|injection Hstep as <-; constructor].
    destruct (users st !! sid); [|done]. injection Hstep as <-. simpl.
    by constructor.
  - unfold on_readMessage.
    destruct (find_message messageId (messages st)); [|constructor].
    destruct (or_null _); [|constructor].
    destruct (negb _); simpl; [|constructor]. by constructor.
  - unfold on_getUnreadCounts. destruct (users st !! sid); constructor.
  - unfold close_socket, on_disconnect. simpl.
    destruct (users st !! sid); constructor.
  - unfold post_rooms. destruct (or_null name); constructor.
  - constructor.
Qed.

Lemma update_found_frozen (mid : string) (f : Message → Message)
    (ms : list Message) :
  (∀ m, frozen (f m) = frozen m) →
  List.map frozen (update_found mid f ms) = List.map frozen ms.
Proof.
  intros Hf. induction ms as [|m ms IH]; simpl; [done|].
  destruct (msg_id m =? mid); simpl; by rewrite ?Hf, ?IH.
Qed.

(** The store is append-only as far as the frozen fields go. *)
Lemma store_change_prefix (ms ms' : list Message) :
  store_change ms ms' →
  ∃ added, List.map frozen ms' = (List.map frozen ms ++ added)%list
           ∧ Forall (λ fz, fz.2 = []) added.
Proof.
  intros [|m Hm|mid f Hf].
  - exists []. by rewrite app_nil_r.
  - exists [frozen m]. unfold push. rewrite List.map_app. split; [done|].
    by repeat constructor.
  - exists []. rewrite app_nil_r. split; [|done]. by apply update_found_frozen.
Qed.

Lemma run_store_prefix (evs : list Event) (st st' : State) :
  run st evs = Some st' →
  ∃ added, List.map frozen (messages st')
           = (List.map frozen (messages st) ++ added)%list
           ∧ Forall (λ fz, fz.2 = []) added.
Proof.
  revert st. induction evs as [|ev evs IH]; simpl; intros st Hrun.
  - injection Hrun as <-. exists []. by rewrite app_nil_r.
  - destruct (step st ev) as [r|] eqn:Hstep; [|done].
    apply step_store_change, store_change_prefix in Hstep
      as (a1 & Ha1 & Hf1).
    apply IH in Hrun as (a2 & Ha2 & Hf2).
    exists (a1 ++ a2)%list. rewrite Ha2, Ha1, <- app_assoc. split; [done|].
    by apply Forall_app.
Qed.

(** C9: the record pushed by sendMessage has an empty deliveredTo, and
    in every state reached from the initial one by any events every
    stored message still has an empty deliveredTo. *)
Theorem C9_deliveredTo_stays_empty (evs : list Event) (st : State) :
  run init evs = Some st →
  (∀ u uuid now data, deliveredTo (new_message u uuid now data) = [])
  ∧ (∀ m, In m (messages st) → deliveredTo m = []).
Proof.
  intros Hrun. split; [done|]. intros m Hin.
  apply run_store_prefix in Hrun as (added & Heq & Hall). simpl in Heq.
  assert (Hfz : In (frozen m) added).
  { rewrite <- Heq. apply in_map_iff. by exists m. }
  rewrite Forall_forall in Hall. apply list_elem_of_In, Hall in Hfz.
  exact Hfz.
Qed.

(** C9 at work: after [chat_trace] the two stored messages, one reacted
    to and one read, have an empty deliveredTo. *)
Lemma C9_deliveredTo_stays_empty_witness :
  run init chat_trace = Some chat_state
  ∧ length (messages chat_state) = 2
  ∧ ∀ m, In m (messages chat_state) → deliveredTo m = [].
Proof.
  split; [vm_compute; reflexivity|]. split; [vm_compute; reflexivity|].
  apply (C9_deliveredTo_stays_empty chat_trace chat_state).
  vm_compute; reflexivity.
Defined.

(** ** Private flag without a recipient (C10) *)

Lemma history_filter_frozen (q : HistoryQuery) (m m' : Message) :
  frozen m' = frozen m → history_filter q m' = history_filter q m.
Proof.
  unfold frozen, history_filter. intros [= Hid Htx Hfi Hse Hti Hro Hpr Hto Hde].
  by rewrite Hse, Hro, Hpr, Hto.
Qed.

(** A message flagged private whose [to] is null passes neither branch
    of the filter. *)
Lemma history_filter_no_recipient (q : HistoryQuery) (m : Message) :
  isPrivate m = true → msg_to m = None → history_filter q m = false.
Proof.
  intros Hp Hto. unfold history_filter. rewrite Hp, Hto. simpl.
  destruct (q_private q); [|done]. destruct (or_null (q_peer q)); [|done].
  by rewrite !andb_false_r.
Qed.

Lemma In_insert_by_time (x m : Message) (l : list Message) :
  In x (insert_by_time m l) → x = m ∨ In x l.
Proof.
  induction l as [|y l IH]; simpl.
  - intros [<-|[]]. by left.
  - destruct (timestamp m <=? timestamp y)%Z; simpl.
    + intros [<-|H]; [by left | by right].
    + intros [<-|H]; [right; by left|].
      destruct (IH H) as [->|?]; [by left | right; by right].
Qed.

Lemma In_sort_by_time (x : Message) (l : list Message) :
  In x (sort_by_time l) → In x l.
Proof.
  induction l as [|m l IH]; simpl; [done|].
  intros H. apply In_insert_by_time in H as [->|H]; [by left|].
  right. by apply IH.
Qed.

Lemma In_js_slice {A} (x : A) (arr : list A) (s e : Z) :
  In x (js_slice arr s e) → In x arr.
Proof.
  unfold js_slice. rewrite <- !list_elem_of_In. intros H.
  eapply subseteq_drop, subseteq_take. exact H.
Qed.

(** Every message of a history page passed the filter. *)
Lemma page_passes_filter (ms : list Message) (q : HistoryQuery) (m : Message) :
  In m (page_messages (get_messages ms q)) →
  In m ms ∧ history_filter q m = true.
Proof.
  unfold get_messages. simpl. intros H.
  apply In_js_slice, In_sort_by_time, filter_In in H. exact H.
Qed.

Lemma run_subscribed_step (st : State) (ev : Event) (r : Result) :
  step st ev = Returned r → subscribed st → subscribed (next r).
Proof.
  unfold subscribed.
  destruct ev; simpl; intros Hstep Hsub; try (injection Hstep as <-).
  - simpl. intros s u Hu. unfold sio_connect, socket_join.
    apply elem_of_union_r. by apply Hsub.
  - unfold on_join. destruct (or_null _) as [name|]; simpl; [|done].
    intros s u. unfold socket_join.
    destruct (decide (sid = s)) as [->|Hne].
    + rewrite lookup_insert_eq. intros [= <-]. simpl.
      apply elem_of_union_l. by apply elem_of_singleton.
    + rewrite lookup_insert_ne by done. intros Hu.
      apply elem_of_union_r. by apply Hsub.
  - unfold on_joinRoom. destruct (users st !! sid) as [v|] eqn:Hv; simpl;
      [|done].
    intros s u. unfold socket_join, socket_leave.
    destruct (decide (sid = s)) as [->|Hne].
    + rewrite lookup_insert_eq. intros [= <-]. simpl.
      apply elem_of_union_l. by apply elem_of_singleton.
    + rewrite lookup_insert_ne by done. intros Hu.
      apply elem_of_union_r, elem_of_difference. split; [by apply Hsub|].
      rewrite elem_of_singleton. intros [= ? ?]. by apply Hne.
  - unfold on_sendMessage. destruct (users st !! sid); simpl; done.
  - unfold on_typing. destruct (users st !! sid); simpl; done.
  - unfold on_react in Hstep.
    destruct (find_message _ _); [|by injection Hstep as <-].
    destruct (users st !! sid); [|done]. by injection Hstep as <-.
  - unfold on_readMessage. destruct (find_message _ _); [|done].
    destruct (or_null _); [|done]. destruct (negb _); done.
  - unfold on_getUnreadCounts. destruct (users st !! sid); done.
  - unfold close_socket, on_disconnect, sio_leave_all. simpl.
    destruct (users st !! sid) as [v|] eqn:Hv; simpl.
    + intros s u. destruct (decide (sid = s)) as [->|Hne].
      * by rewrite lookup_delete_eq.
      * rewrite lookup_delete_ne by done. intros Hu.
        apply elem_of_filter. split; [simpl; congruence | by apply Hsub].
    + intros s u Hu. apply elem_of_filter. split; [|by apply Hsub].
      simpl. intros ->. by rewrite Hv in Hu.
  - unfold post_rooms. destruct (or_null name); done.
  - done.
Qed.

(** In every state reached from the initial one, a socket with a
    session is in the socket.io room of that session. *)
Lemma run_subscribed (evs : list Event) (st st' : State) :
  run st evs = Some st' → subscribed st → subscribed st'.
Proof.
  revert st. induction evs as [|ev evs IH]; simpl; intros st Hrun Hsub.
  - by injection Hrun as <-.
  - destruct (step st ev) as [r|] eqn:Hstep; [|done].
    eapply IH; [exact Hrun|]. by eapply run_subscribed_step.
Qed.

Lemma init_subscribed : subscribed init.
Proof. intros sid u Hu. simpl in Hu. by rewrite lookup_empty in Hu. Qed.

(** C10: a sendMessage flagged private without a recipient stores the
    record with isPrivate true and to null, emits it as receiveMessage
    to the sockets of the sender's room -- all the sockets whose session
    is in that room among them -- and acknowledges it as delivered.  The
    record passes no history filter, neither then nor after any later
    events: it stays in the store at its index with the same frozen
    fields, and no page of any later query holds a record with them. *)
Theorem C10_private_without_recipient (st : State) (sid uuid : string)
    (now : Z) (data : SendPayload) (cb : bool) (u : Session) :
  users st !! sid = Some u →
  send_isPrivate data = true →
  send_to data = None →
  let r := on_sendMessage st sid uuid now data cb in
  let msg := new_message u uuid now data in
  messages (next r) = push (messages st) msg
  ∧ isPrivate msg = true ∧ msg_to msg = None
  ∧ emitted r = io_to_emit (sio st) (room u) (EvReceiveMessage msg)
  ∧ (∀ c, In c (receivers (emitted r)) ↔ (c, room u) ∈ sio st)
  ∧ (subscribed st →
     ∀ c v, users st !! c = Some v → room v = room u →
            In c (receivers (emitted r)))
  ∧ ack r = reply cb (AckDelivered uuid)
  ∧ (∀ q, history_filter q msg = false)
  ∧ (∀ evs st2,
       run (next r) evs = Some st2 →
       (∃ m', messages st2 !! length (messages st) = Some m'
              ∧ frozen m' = frozen msg)
       ∧ ∀ q m', In m' (page_messages (get_messages (messages st2) q)) →
                 frozen m' ≠ frozen msg).
Proof.
  intros Hu Hp Hto r msg.
  assert (Hmp : isPrivate msg = true) by exact Hp.
  assert (Hmt : msg_to msg = None) by (unfold msg; simpl; by rewrite Hto).
  assert (Hr : r = mkResult
                 (mkState (users st) (push (messages st) msg) (rooms st)
                    (sio st))
                 (io_to_emit (sio st) (room u) (EvReceiveMessage msg))
                 (reply cb (AckDelivered uuid))).
  { unfold r, on_sendMessage. rewrite Hu. fold msg. cbv zeta.
    rewrite Hmp, Hmt. done. }
  rewrite Hr. simpl next. simpl emitted. simpl ack.
  assert (Hrecv : ∀ c, In c (receivers (io_to_emit (sio st) (room u)
                                (EvReceiveMessage msg)))
                       ↔ (c, room u) ∈ sio st).
  { intros c. rewrite receivers_io_to_emit. apply In_members. }
  split; [done|]. split; [done|]. split; [done|]. split; [done|].
  split; [exact Hrecv|].
  split.
  { intros Hsub c v Hv Hroom. apply Hrecv. rewrite <- Hroom. by apply Hsub. }
  split; [done|].
  split.
  { intros q. by apply history_filter_no_recipient. }
  intros evs st2 Hrun. split.
  - apply run_store_prefix in Hrun as (added & Heq & _). simpl in Heq.
    unfold push in Heq. rewrite List.map_app, <- app_assoc in Heq.
    simpl in Heq.
    assert (Hl : List.map frozen (messages st2) !! length (messages st)
                 = Some (frozen msg)).
    { rewrite Heq. rewrite lookup_app_r by (by rewrite length_map).
      by rewrite length_map, Nat.sub_diag. }
    change (List.map frozen (messages st2)) with (frozen <$> messages st2) in Hl.
    rewrite list_lookup_fmap in Hl.
    destruct (messages st2 !! length (messages st)) as [m'|]; [|done].
    exists m'. split; [done|]. apply (inj Some). exact Hl.
  - intros q m' Hin Hfz. apply page_passes_filter in Hin as [_ Hf].
    rewrite (history_filter_frozen q msg m' Hfz) in Hf.
    by rewrite history_filter_no_recipient in Hf.
Qed.

(** The flagged message reaches both sockets of the room as an ordinary
    receiveMessage, and the public page of the room stays empty. *)
Example flagged_message_broadcast_and_hidden :
  let r := on_sendMessage carol_and_dave "s1" "m1" 3
             (mkSend (Some "psst") None true None) true in
  same_set (receivers (emitted r)) ["s1"; "s2"] = true
  ∧ List.map isPrivate (messages (next r)) = [true]
  ∧ get_messages (messages (next r))
      (mkQuery (Some "global") None None false None None) = mkPage [] 0
  ∧ get_messages (messages (next r))
      (mkQuery None None None true (Some "dave") (Some "carol")) = mkPage [] 0.
Proof. vm_compute. repeat split; reflexivity. Qed.

(** C10 at work: carol flags a message private and names nobody. *)
Lemma C10_private_without_recipient_witness :
  let st := carol_and_dave in
  let data := mkSend (Some "psst") None true None in
  let r := on_sendMessage st "s1" "m1" 3 data true in
  let msg := new_message (mkSession "carol" "global" 0) "m1" 3 data in
  (users st !! "s1" = Some (mkSession "carol" "global" 0)
   ∧ send_isPrivate data = true ∧ send_to data = None)
  ∧ messages (next r) = push (messages st) msg
  ∧ isPrivate msg = true ∧ msg_to msg = None
  ∧ emitted r = io_to_emit (sio st) "global" (EvReceiveMessage msg).
Proof.
  intros st data r msg.
  assert (Hu : users st !! "s1" = Some (mkSession "carol" "global" 0))
    by (vm_compute; reflexivity).
  split; [by repeat split|].
  destruct (C10_private_without_recipient st "s1" "m1" 3 data true
              (mkSession "carol" "global" 0) Hu eq_refl eq_refl)
    as (H1 & H2 & H3 & H4 & _).
  by repeat split.
Defined.

(** ** The room directory *)

Lemma add_room_spec (n : string) (l : list string) :
  let l' := if includes n l then l else push l n in
  In n l'
  ∧ (∃ added, l' = (l ++ added)%list)
  ∧ (List.NoDup l → List.NoDup l')
  ∧ (if includes n l' then l' else push l' n) = l'.
Proof.
  simpl. destruct (includes n l) eqn:Hinc.
  - rewrite Hinc. split; [by apply includes_In|].
    split; [exists []; by rewrite app_nil_r|]. done.
  - assert (Hin : In n (push l n)).
    { unfold push. apply in_app_iff. right. by left. }
    apply includes_In in Hin as Hinc'. rewrite Hinc'.
    split; [done|]. split; [by exists [n]|]. split; [|done].
    intros Hnd. unfold push. apply NoDup_ListNoDup, NoDup_app.
    apply NoDup_ListNoDup in Hnd. split; [done|]. split.
    + intros x Hx Hx'. apply list_elem_of_In in Hx.
      apply list_elem_of_singleton in Hx'. subst x.
      by apply includes_false in Hinc.
    + apply NoDup_singleton.
Qed.

(** X1: POST /rooms without a name (missing or empty) answers with the
    error and changes nothing.  With a name it answers with the room
    list, which now holds the name, keeps the rooms it had in their order
    and adds the name at most once; the other tables are untouched, and
    posting the same name again changes nothing more. *)
Theorem post_rooms_insert_if_absent (st : State) (name : option string) :
  match or_null name with
  | None => post_rooms st name = (st, None)
  | Some n =>
      let st' := (post_rooms st name).1 in
      (post_rooms st name).2 = Some (rooms st')
      ∧ In n (rooms st')
      ∧ (∃ added, rooms st' = (rooms st ++ added)%list)
      ∧ (List.NoDup (rooms st) → List.NoDup (rooms st'))
      ∧ users st' = users st ∧ messages st' = messages st ∧ sio st' = sio st
      ∧ post_rooms st' name = (st', Some (rooms st'))
  end.
Proof.
  unfold post_rooms. destruct (or_null name) as [n|]; [|done]. simpl.
  destruct (add_room_spec n (rooms st)) as (Hin & Hpre & Hnd & Hidem).
  repeat split; try done. by rewrite Hidem.
Qed.

Lemma step_rooms (st : State) (ev : Event) (r : Result) :
  step st ev = Returned r →
  (∃ added, rooms (next r) = (rooms st ++ added)%list)
  ∧ (List.NoDup (rooms st) → List.NoDup (rooms (next r))).
Proof.
  assert (Hsame : (∃ added, rooms st = (rooms st ++ added)%list)
                  ∧ (List.NoDup (rooms st) → List.NoDup (rooms st))).
  { split; [exists []; by rewrite app_nil_r | done]. }
  destruct ev; simpl; intros Hstep; try (injection Hstep as <-); try exact Hsame.
  - unfold on_join. destruct (or_null _); simpl; [|exact Hsame].
    destruct (add_room_spec (default "global" (join_room p)) (rooms st))
      as (_ & Hpre & Hnd & _). done.
  - unfold on_joinRoom. destruct (users st !! sid); exact Hsame.
  - unfold on_sendMessage. destruct (users st !! sid); exact Hsame.
  - unfold on_typing. destruct (users st !! sid); exact Hsame.
  - unfold on_react in Hstep.
    destruct (find_message _ _); [|by injection Hstep as <-].
    destruct (users st !! sid); [|done]. by injection Hstep as <-.
  - unfold on_readMessage. destruct (find_message _ _); [|exact Hsame].
    destruct (or_null _); [|exact Hsame]. destruct (negb _); exact Hsame.
  - unfold on_getUnreadCounts. destruct (users st !! sid); exact Hsame.
  - unfold close_socket, on_disconnect. simpl.
    destruct (users st !! sid); exact Hsame.
  - unfold post_rooms. destruct (or_null name) as [n|]; simpl; [|exact Hsame].
    destruct (add_room_spec n (rooms st)) as (_ & Hpre & Hnd & _). done.
Qed.

(** X2: whatever events the server handles, rooms are never removed or
    reordered (the directory before is a prefix of the directory after);
    from the initial state the directory therefore always starts with
    "global", and it never holds a name twice. *)
Theorem rooms_only_grow (evs : list Event) (st st' : State) :
  run st evs = Some st' →
  (∃ added, rooms st' = (rooms st ++ added)%list)
  ∧ (List.NoDup (rooms st) → List.NoDup (rooms st'))
  ∧ (st = init → ∃ others, rooms st' = "global" :: others).
Proof.
  intros Hrun.
  assert (H : (∃ added, rooms st' = (rooms st ++ added)%list)
              ∧ (List.NoDup (rooms st) → List.NoDup (rooms st'))).
  { revert st Hrun. induction evs as [|ev evs IH]; simpl; intros st Hrun.
    - injection Hrun as <-. split; [exists []; by rewrite app_nil_r | done].
    - destruct (step st ev) as [r|] eqn:Hstep; [|done].
      apply step_rooms in Hstep as [[a1 Ha1] Hn1].
      apply IH in Hrun as [[a2 Ha2] Hn2]. split.
      + exists (a1 ++ a2)%list. by rewrite Ha2, Ha1, <- app_assoc.
      + auto. }
  destruct H as [[added Hadd] Hnd]. repeat split; [by exists added | done |].
  intros ->. exists added. by rewrite Hadd.
Qed.

Lemma rooms_only_grow_witness :
  (run init (directory_start ++ directory_trace)%list = Some two_rooms_later
   ∧ run two_rooms directory_trace = Some two_rooms_later
   ∧ List.NoDup (rooms two_rooms))
  ∧ rooms two_rooms = ["global"; "dev"]
  ∧ rooms two_rooms_later = ["global"; "dev"; "design"; "ops"]
  ∧ (∃ added, rooms two_rooms_later = (rooms two_rooms ++ added)%list)
  ∧ List.NoDup (rooms two_rooms_later)
  ∧ (∃ others, rooms two_rooms_later = "global" :: others).
Proof.
  assert (H0 : run init (directory_start ++ directory_trace)%list
               = Some two_rooms_later) by (vm_compute; reflexivity).
  assert (H1 : run two_rooms directory_trace = Some two_rooms_later)
    by (vm_compute; reflexivity).
  assert (Hnd : List.NoDup (rooms two_rooms)).
  { vm_compute. repeat (constructor; [simpl; intuition discriminate|]).
    constructor. }
  split; [exact (conj H0 (conj H1 Hnd))|].
  split; [vm_compute; reflexivity|]. split; [vm_compute; reflexivity|].
  split; [exact (proj1 (rooms_only_grow _ _ _ H1))|].
  split; [exact (proj1 (proj2 (rooms_only_grow _ _ _ H1)) Hnd)|].
  exact (proj2 (proj2 (rooms_only_grow _ _ _ H0)) eq_refl).
Defined.

(** ** The message store over time *)

Lemma grown_from_refl (m : Message) : grown_from m m.
Proof.
  split; [done|]. split; exists []; by rewrite app_nil_r.
Qed.

Lemma grown_from_trans (m1 m2 m3 : Message) :
  grown_from m1 m2 → grown_from m2 m3 → grown_from m1 m3.
Proof.
  intros (Hf1 & [r1 Hr1] & [n1 Hn1]) (Hf2 & [r2 Hr2] & [n2 Hn2]).
  split; [by rewrite Hf2|]. split.
  - exists (r1 ++ r2)%list. by rewrite Hr2, Hr1, <- app_assoc.
  - exists (n1 ++ n2)%list. by rewrite Hn2, Hn1, <- app_assoc.
Qed.

Lemma Forall2_grown_refl (ms : list Message) : Forall2 grown_from ms ms.
Proof. induction ms; constructor; [apply grown_from_refl | done]. Qed.

Lemma update_found_grown (mid : string) (f : Message → Message)
    (ms : list Message) :
  (∀ m, grown_from m (f m)) → Forall2 grown_from ms (update_found mid f ms).
Proof.
  intros Hf. induction ms as [|m ms IH]; simpl; [constructor|].
  destruct (msg_id m =? mid).
  - constructor; [apply Hf | apply Forall2_grown_refl].
  - constructor; [apply grown_from_refl | exact IH].
Qed.

Lemma add_reaction_grown (r : Reaction) (m : Message) :
  grown_from m (add_reaction r m).
Proof.
  split; [done|]. split; [by exists [r] | exists []; simpl; by rewrite app_nil_r].
Qed.

Lemma add_reader_grown (name : string) (m : Message) :
  grown_from m (add_reader name m).
Proof.
  split; [done|]. split; [exists []; simpl; by rewrite app_nil_r | by exists [name]].
Qed.

Lemma store_grown_refl (ms : list Message) : store_grown_from ms ms.
Proof.
  exists ms, []. split; [by rewrite app_nil_r | apply Forall2_grown_refl].
Qed.

Lemma store_grown_trans (ms1 ms2 ms3 : list Message) :
  store_grown_from ms1 ms2 → store_grown_from ms2 ms3 →
  store_grown_from ms1 ms3.
Proof.
  intros (o1 & a1 & -> & H1) (o2 & a2 & -> & H2).
  apply Forall2_app_inv_l in H2 as (k1 & k2 & Hk1 & Hk2 & ->).
  exists k1, (k2 ++ a2)%list. split; [by rewrite <- app_assoc|].
  clear Hk2. revert k1 Hk1. induction H1 as [|m m' ms ms' Hm Hms IH];
    intros k1 Hk1.
  - apply Forall2_nil_inv_l in Hk1. subst. constructor.
  - apply Forall2_cons_inv_l in Hk1 as (m'' & k & Hm' & Hk & ->).
    constructor; [by eapply grown_from_trans | by apply IH].
Qed.

Lemma step_store_grown (st : State) (ev : Event) (r : Result) :
  step st ev = Returned r →
  store_grown_from (messages st) (messages (next r)).
Proof.
  pose proof (store_grown_refl (messages st)) as Hsame.
  destruct ev; simpl; intros Hstep; try (injection Hstep as <-);
    try exact Hsame.
  - unfold on_join. destruct (or_null _); exact Hsame.
  - unfold on_joinRoom. destruct (users st !! sid); exact Hsame.
  - unfold on_sendMessage. destruct (users st !! sid) as [u|]; simpl;
      [|exact Hsame].
    exists (messages st), [new_message u uuid now data].
    split; [done | apply Forall2_grown_refl].
  - unfold on_typing. destruct (users st !! sid); exact Hsame.
  - unfold on_react in Hstep.
    destruct (find_message _ _); [|by injection Hstep as <-].
    destruct (users st !! sid); [|done]. injection Hstep as <-. simpl.
    eexists _, []. split; [by rewrite app_nil_r|].
    apply update_found_grown, add_reaction_grown.
  - unfold on_readMessage. destruct (find_message _ _); [|exact Hsame].
    destruct (or_null _); [|exact Hsame].
    destruct (negb _); simpl; [|exact Hsame].
    eexists _, []. split; [by rewrite app_nil_r|].
    apply update_found_grown, add_reader_grown.
  - unfold on_getUnreadCounts. destruct (users st !! sid); exact Hsame.
  - unfold close_socket, on_disconnect. simpl.
    destruct (users st !! sid); exact Hsame.
  - unfold post_rooms. destruct (or_null name); exact Hsame.
Qed.

Lemma run_store_grown (evs : list Event) (st st' : State) :
  run st evs = Some st' → store_grown_from (messages st) (messages st').
Proof.
  revert st. induction evs as [|ev evs IH]; simpl; intros st Hrun.
  - injection Hrun as <-. apply store_grown_refl.
  - destruct (step st ev) as [r|] eqn:Hstep; [|done].
    eapply store_grown_trans; [by eapply step_store_grown | by apply IH].
Qed.

(** X3: the store is append-only.  After any events a message that was
    stored is still at the same index, with the same id, text, file,
    sender, timestamp, room, private flag, recipient and deliveredTo;
    its reactions and its readBy have only been extended at the end.
    No message is ever deleted, moved or rewritten. *)
Theorem messages_never_lost (evs : list Event) (st st' : State) (i : nat)
    (m : Message) :
  run st evs = Some st' →
  messages st !! i = Some m →
  ∃ m', messages st' !! i = Some m' ∧ grown_from m m'.
Proof.
  intros Hrun Hm. apply run_store_grown in Hrun as (old & added & -> & Hall).
  destruct (Forall2_lookup_l _ _ _ _ _ Hall Hm) as (m' & Hm' & Hg).
  exists m'. split; [|done]. by apply lookup_app_l_Some.
Qed.

Lemma messages_never_lost_witness :
  (run one_message later_trace = Some one_message_later
   ∧ messages one_message !! 0
     = Some (new_message (mkSession "alice" "global" 0) "m1" 1
               (mkSend (Some "hi") None false None)))
  ∧ ∃ m', messages one_message_later !! 0 = Some m'
          ∧ grown_from (new_message (mkSession "alice" "global" 0) "m1" 1
                          (mkSend (Some "hi") None false None)) m'.
Proof.
  assert (H1 : run one_message later_trace = Some one_message_later)
    by (vm_compute; reflexivity).
  assert (H2 : messages one_message !! 0
     = Some (new_message (mkSession "alice" "global" 0) "m1" 1
               (mkSend (Some "hi") None false None)))
    by (vm_compute; reflexivity).
  split; [by split|].
  exact (messages_never_lost _ _ _ 0 _ H1 H2).
Defined.

(** ** Reactions and read receipts *)

(** [find] returns the first element of that id, and the write through
    it lands on that element. *)
Lemma find_message_index (mid : string) (ms : list Message) (msg : Message)
    (f : Message → Message) :
  find_message mid ms = Some msg →
  ∃ i, ms !! i = Some msg
       ∧ msg_id msg = mid
       ∧ (∀ j m, (j < i)%nat → ms !! j = Some m → msg_id m ≠ mid)
       ∧ update_found mid f ms = <[i := f msg]> ms.
Proof.
  unfold find_message. induction ms as [|m ms IH]; simpl; [done|].
  destruct (String.eqb_spec (msg_id m) mid) as [Heq|Hne].
  - intros [= ->]. exists 0%nat. repeat split; try done. intros j m' Hj. lia.
  - intros Hfind. destruct (IH Hfind) as (i & Hi & Hid & Hbefore & Hupd).
    exists (S i). repeat split; try done.
    + intros [|j] m' Hj Hm'; simpl in Hm'.
      * by injection Hm' as <-.
      * apply (Hbefore j); [lia | done].
    + simpl. by rewrite Hupd.
Qed.

Lemma find_message_update (mid : string) (f : Message → Message)
    (ms : list Message) :
  (∀ m, msg_id (f m) = msg_id m) →
  find_message mid (update_found mid f ms) = f <$> find_message mid ms.
Proof.
  intros Hid. unfold find_message. induction ms as [|m ms IH]; simpl; [done|].
  destruct (msg_id m =? mid) eqn:Heq; simpl.
  - by rewrite Hid, Heq.
  - by rewrite Heq.
Qed.

(** X4: a react from a joined socket on a stored message is never
    refused and never merged: it writes exactly one more entry
    { user: the reactor's username, reaction } at the end of the
    reactions of the first message with that id, also when the same user
    has already given the same reaction.  The message stays at its index,
    nothing else in the state changes, and the acknowledgement is ok. *)
Theorem react_appends_one (st : State) (sid mid rn : string) (cb : bool)
    (u : Session) (msg : Message) :
  users st !! sid = Some u →
  find_message mid (messages st) = Some msg →
  ∃ i r,
    messages st !! i = Some msg
    ∧ on_react st sid mid rn cb = Returned r
    ∧ messages (next r)
      = <[i := add_reaction (mkReaction (username u) rn) msg]> (messages st)
    ∧ reactions (add_reaction (mkReaction (username u) rn) msg)
      = (reactions msg ++ [mkReaction (username u) rn])%list
    ∧ users (next r) = users st ∧ rooms (next r) = rooms st
    ∧ sio (next r) = sio st
    ∧ ack r = reply cb AckOk.
Proof.
  intros Hu Hfind.
  destruct (find_message_index mid (messages st) msg
              (add_reaction (mkReaction (username u) rn)) Hfind)
    as (i & Hi & _ & _ & Hupd).
  unfold on_react. rewrite Hfind, Hu. eexists i, _.
  split; [done|]. split; [done|]. simpl. by rewrite Hupd.
Qed.

Lemma react_appends_one_witness :
  (users one_message !! "s1" = Some (mkSession "alice" "global" 0)
   ∧ find_message "m1" (messages one_message)
     = Some (new_message (mkSession "alice" "global" 0) "m1" 1
               (mkSend (Some "hi") None false None)))
  ∧ ∃ i r, messages one_message !! i
           = Some (new_message (mkSession "alice" "global" 0) "m1" 1
                     (mkSend (Some "hi") None false None))
           ∧ on_react one_message "s1" "m1" "heart" true = Returned r.
Proof.
  assert (H1 : users one_message !! "s1"
               = Some (mkSession "alice" "global" 0))
    by (vm_compute; reflexivity).
  assert (H2 : find_message "m1" (messages one_message)
     = Some (new_message (mkSession "alice" "global" 0) "m1" 1
               (mkSend (Some "hi") None false None)))
    by (vm_compute; reflexivity).
  split; [by split|].
  destruct (react_appends_one one_message "s1" "m1" "heart" true _ _ H1 H2)
    as (i & r & Hi & Hr & _).
  by exists i, r.
Defined.


Lemma update_found_Forall (P : Message → Prop) (mid : string)
    (f : Message → Message) (ms : list Message) (msg : Message) :
  find_message mid ms = Some msg →
  P (f msg) → Forall P ms → Forall P (update_found mid f ms).
Proof.
  unfold find_message. induction ms as [|m ms IH]; simpl; [done|].
  destruct (msg_id m =? mid).
  - intros [= ->] Hf Hall. apply Forall_cons in Hall as [_ Hall].
    by constructor.
  - intros Hfind Hf Hall. apply Forall_cons in Hall as [Hm Hall].
    constructor; [done | by apply IH].
Qed.

Lemma find_message_In (mid : string) (ms : list Message) (msg : Message) :
  find_message mid ms = Some msg → In msg ms.
Proof. unfold find_message. intros H. by apply find_some in H as [? _]. Qed.

Lemma step_readBy_NoDup (st : State) (ev : Event) (r : Result) :
  step st ev = Returned r →
  Forall (λ m, List.NoDup (readBy m)) (messages st) →
  Forall (λ m, List.NoDup (readBy m)) (messages (next r)).
Proof.
  destruct ev; simpl; intros Hstep Hall; try (injection Hstep as <-);
    try exact Hall.
  - unfold on_join. destruct (or_null _); exact Hall.
  - unfold on_joinRoom. destruct (users st !! sid); exact Hall.
  - unfold on_sendMessage. destruct (users st !! sid); simpl; [|exact Hall].
    unfold push. apply Forall_app. split; [done|].
    constructor; [simpl; constructor | constructor].
  - unfold on_typing. destruct (users st !! sid); exact Hall.
  - unfold on_react in Hstep.
    destruct (find_message _ _) as [msg|] eqn:Hfind;
      [|by injection Hstep as <-].
    destruct (users st !! sid); [|done]. injection Hstep as <-. simpl.
    eapply update_found_Forall; [exact Hfind | | exact Hall]. simpl.
    rewrite Forall_forall in Hall.
    by apply Hall, list_elem_of_In, find_message_In with messageId.
  - unfold on_readMessage.
    destruct (find_message _ _) as [msg|] eqn:Hfind; [|exact Hall].
    destruct (or_null _) as [name|]; [|exact Hall].
    destruct (includes name (readBy msg)) eqn:Hinc; simpl; [exact Hall|].
    eapply update_found_Forall; [exact Hfind | | exact Hall]. simpl.
    assert (Hmsg : List.NoDup (readBy msg)).
    { rewrite Forall_forall in Hall.
      by apply Hall, list_elem_of_In, find_message_In with messageId. }
    unfold push. apply NoDup_ListNoDup, NoDup_app.
    apply NoDup_ListNoDup in Hmsg. split; [done|]. split.
    + intros x Hx Hx'. apply list_elem_of_singleton in Hx'. subst x.
      apply list_elem_of_In in Hx. by apply includes_false in Hinc.
    + apply NoDup_singleton.
  - unfold on_getUnreadCounts. destruct (users st !! sid); exact Hall.
  - unfold close_socket, on_disconnect. simpl.
    destruct (users st !! sid); exact Hall.
  - unfold post_rooms. destruct (or_null name); exact Hall.
Qed.

(** X6: in every state reached from the initial one, no username is
    twice in the readBy of a message: a reader is recorded once, however
    often the message is read. *)
Theorem readBy_no_duplicates (evs : list Event) (st : State) (m : Message) :
  run init evs = Some st →
  In m (messages st) →
  List.NoDup (readBy m).
Proof.
  assert (Hgen : ∀ st0, Forall (λ m, List.NoDup (readBy m)) (messages st0) →
            run st0 evs = Some st →
            Forall (λ m, List.NoDup (readBy m)) (messages st)).
  { induction evs as [|ev evs IH]; simpl; intros st0 Hall Hrun.
    - by injection Hrun as <-.
    - destruct (step st0 ev) as [r|] eqn:Hstep; [|done].
      eapply IH; [|exact Hrun]. by eapply step_readBy_NoDup. }
  intros Hrun Hin. specialize (Hgen init (Forall_nil_2 _) Hrun).
  rewrite Forall_forall in Hgen. by apply Hgen, list_elem_of_In.
Qed.

Lemma readBy_no_duplicates_witness :
  let m := add_reader "alice"
             (add_reader "bob"
                (new_message (mkSession "alice" "global" 0) "m1" 1
                   (mkSend (Some "hi") None false None))) in
  (run init read_trace = Some read_state ∧ In m (messages read_state))
  ∧ readBy m = ["bob"; "alice"]
  ∧ List.NoDup (readBy m).
Proof.
  intros m.
  assert (H : run init read_trace = Some read_state)
    by (vm_compute; reflexivity).
  assert (Hin : In m (messages read_state))
    by (vm_compute; left; reflexivity).
  split; [exact (conj H Hin)|]. split; [reflexivity|].
  exact (readBy_no_duplicates read_trace read_state m H Hin).
Defined.

(** ** The history endpoint *)

Lemma get_messages_history (ms : list Message) (q : HistoryQuery) :
  get_messages ms q =
  let n := Z.of_nat (length (history_of ms q)) in
  let pageNum := Z.max 1 (default 1%Z (q_page q)) in
  let lim := Z.max 1 (default 20%Z (q_limit q)) in
  mkPage (js_slice (history_of ms q) (Z.max 0 (n - pageNum * lim))
            (n - (pageNum - 1) * lim))
    (length (history_of ms q)).
Proof. done. Qed.

Lemma history_of_with_page (ms : list Message) (q : HistoryQuery) (p : Z) :
  history_of ms (with_page q p) = history_of ms q.
Proof. done. Qed.

Lemma js_slice_parts {A} (arr : list A) (s e : Z) :
  ∃ i j, js_slice arr s e = take j (drop i arr).
Proof. unfold js_slice. eauto. Qed.

Lemma StronglySorted_take_drop {A} (R : A → A → Prop) (l : list A)
    (i j : nat) :
  StronglySorted R l → StronglySorted R (take j (drop i l)).
Proof.
  intros Hl. rewrite <- (take_drop i l) in Hl.
  apply StronglySorted_app in Hl as (_ & _ & Hd).
  rewrite <- (take_drop j (drop i l)) in Hd.
  by apply StronglySorted_app in Hd as (_ & Ht & _).
Qed.

(** X7: whatever page and limit are asked for, the messages of the
    answer are in ascending order of timestamp (oldest first), every one
    of them is a stored message that passes the filter of the query, and
    [total] is the number of stored messages that pass it, the same for
    every page. *)
Theorem history_page_ordered (ms : list Message) (q : HistoryQuery) :
  let page := get_messages ms q in
  StronglySorted by_time (page_messages page)
  ∧ (∀ m, In m (page_messages page) →
          In m ms ∧ history_filter q m = true)
  ∧ total page = length (List.filter (history_filter q) ms)
  ∧ (∀ p, total (get_messages ms (with_page q p)) = total page).
Proof.
  cbv zeta. split; [|split; [|split]].
  - rewrite get_messages_history. cbn [page_messages].
    destruct (js_slice_parts (history_of ms q)
                (Z.max 0 (Z.of_nat (length (history_of ms q))
                          - Z.max 1 (default 1%Z (q_page q))
                            * Z.max 1 (default 20%Z (q_limit q))))
                (Z.of_nat (length (history_of ms q))
                 - (Z.max 1 (default 1%Z (q_page q)) - 1)
                   * Z.max 1 (default 20%Z (q_limit q)))) as (i & j & ->).
    apply StronglySorted_take_drop, sort_by_time_sorted.
  - intros m. apply page_passes_filter.
  - unfold get_messages. simpl. apply Permutation_length, sort_by_time_perm.
  - done.
Qed.

Lemma take_drop_step {A} (l : list A) (s e : nat) :
  (s ≤ e)%nat → (take (e - s) (drop s l) ++ drop e l)%list = drop s l.
Proof.
  intros Hse. rewrite <- (take_drop (e - s) (drop s l)) at 2.
  f_equal. rewrite drop_drop. f_equal. lia.
Qed.

Lemma pages_loaded_tail (ms : list Message) (q : HistoryQuery)
    (lim : Z) (k : nat) :
  q_limit q = Some lim → (1 ≤ lim)%Z →
  ((Z.of_nat k - 1) * lim ≤ Z.of_nat (length (history_of ms q)))%Z →
  pages_loaded ms q k
  = drop (Z.to_nat (Z.of_nat (length (history_of ms q)) - Z.of_nat k * lim))
      (history_of ms q).
Proof.
  intros Hlim Hl1. induction k as [|k IH]; intros Hk.
  - simpl. rewrite Z.sub_0_r, Nat2Z.id. by rewrite drop_all.
  - cbn [pages_loaded].
    rewrite (get_messages_in_range ms (with_page q (Z.of_nat (S k)))
               (Z.of_nat (S k)) lim) by (try done; simpl; lia).
    cbn [page_messages]. fold (history_of ms (with_page q (Z.of_nat (S k)))).
    rewrite history_of_with_page.
    rewrite IH by nia.
    replace (Z.of_nat (S k) - 1)%Z with (Z.of_nat k) by lia.
    apply take_drop_step. nia.
Qed.

(** X8: loading pages 1, 2, ..., k and putting each older page in front
    rebuilds the end of the history without a gap and without a
    repetition.  For a limit >= 1 and a number of pages whose product the
    handler computes exactly (k * limit at most Number.MAX_SAFE_INTEGER),
    and as long as the pages before the k-th do not run past the history
    ((k-1) * limit <= N), the k pages together are exactly the last
    k * limit messages in order, or the whole history when it is
    shorter. *)
Theorem pages_rebuild_history (ms : list Message) (q : HistoryQuery)
    (lim : Z) (k : nat) :
  q_limit q = Some lim → (1 ≤ lim)%Z →
  (Z.of_nat k * lim ≤ MAX_SAFE_INTEGER)%Z →
  ((Z.of_nat k - 1) * lim ≤ Z.of_nat (length (history_of ms q)))%Z →
  pages_loaded ms q k
  = drop (Z.to_nat (Z.of_nat (length (history_of ms q)) - Z.of_nat k * lim))
      (history_of ms q).
Proof.
  intros Hlim Hl1 _ Hk. by apply pages_loaded_tail.
Qed.

Lemma pages_rebuild_history_witness :
  let q := mkQuery (Some "global") None (Some 20%Z) false None None in
  (q_limit q = Some 20%Z ∧ (1 ≤ 20)%Z
   ∧ (Z.of_nat 3 * 20 ≤ MAX_SAFE_INTEGER)%Z
   ∧ ((Z.of_nat 3 - 1) * 20 ≤ Z.of_nat (length (history_of history45 q)))%Z)
  ∧ pages_loaded history45 q 3 = history_of history45 q.
Proof.
  intros q.
  assert (Hsafe : (Z.of_nat 3 * 20 ≤ MAX_SAFE_INTEGER)%Z)
    by (vm_compute; discriminate).
  assert (Hn : ((Z.of_nat 3 - 1) * 20
                ≤ Z.of_nat (length (history_of history45 q)))%Z)
    by (vm_compute; discriminate).
  split; [repeat split; [lia | exact Hsafe | exact Hn]|].
  rewrite (pages_rebuild_history history45 q 20 3 eq_refl ltac:(lia) Hsafe
             Hn).
  vm_compute. reflexivity.
Defined.

Lemma In_history_of (ms : list Message) (q : HistoryQuery) (m : Message) :
  In m (history_of ms q) ↔ In m ms ∧ history_filter q m = true.
Proof.
  unfold history_of. rewrite <- filter_In, <- !list_elem_of_In.
  by rewrite sort_by_time_perm.
Qed.

Lemma In_pages_loaded (ms : list Message) (q : HistoryQuery) (k : nat)
    (m : Message) :
  In m (pages_loaded ms q k) → In m ms ∧ history_filter q m = true.
Proof.
  induction k as [|k IH]; [done|]. cbn [pages_loaded].
  rewrite in_app_iff. intros [H|H]; [|by apply IH].
  by apply page_passes_filter in H.
Qed.

Lemma length_history_of (ms : list Message) (q : HistoryQuery) :
  (length (history_of ms q) ≤ length ms)%nat.
Proof.
  unfold history_of.
  rewrite (Permutation_length (sort_by_time_perm _)).
  apply List.filter_length_le.
Qed.

(** X9: paging through the public history of a room reaches exactly the
    stored messages of that room that are not flagged private (the room
    is "global" when the query names none).  For a limit >= 1 that with
    the size of the store stays within Number.MAX_SAFE_INTEGER, and
    counting only numbers of pages k whose product k * limit the handler
    computes exactly: nothing else is ever in a page, and each of those
    messages is in the pages loaded once enough pages are asked for. *)
Theorem public_history_complete (ms : list Message) (q : HistoryQuery)
    (lim : Z) (m : Message) :
  q_private q = false → q_limit q = Some lim → (1 ≤ lim)%Z →
  (Z.of_nat (length ms) + lim ≤ MAX_SAFE_INTEGER)%Z →
  (∃ k, (Z.of_nat k * lim ≤ MAX_SAFE_INTEGER)%Z
        ∧ In m (pages_loaded ms q k))
  ↔ In m ms ∧ isPrivate m = false
    ∧ msg_room m = default "global" (q_room q).
Proof.
  intros Hpub Hlim Hl1 Hsafe.
  assert (Hf : history_filter q m = true
               ↔ isPrivate m = false
                 ∧ msg_room m = default "global" (q_room q)).
  { unfold history_filter. rewrite Hpub, andb_true_iff, negb_true_iff.
    by rewrite String.eqb_eq. }
  rewrite <- Hf. split.
  - intros (k & _ & Hk). by apply In_pages_loaded in Hk.
  - intros Hm. apply In_history_of in Hm.
    pose proof (length_history_of ms q) as Hlen.
    set (n := Z.of_nat (length (history_of ms q))) in *.
    exists (Z.to_nat (n / lim + 1)).
    assert (Hdiv : (0 ≤ n / lim)%Z) by (apply Z.div_pos; lia).
    pose proof (Z.mul_div_le n lim ltac:(lia)) as Hle.
    pose proof (Z.mul_succ_div_gt n lim ltac:(lia)) as Hgt.
    split; [lia|].
    rewrite (pages_loaded_tail ms q lim) by (try done; fold n; lia).
    fold n. replace (Z.to_nat (n - _)) with 0%nat by lia.
    by rewrite drop_0.
Qed.

Lemma public_history_complete_witness :
  let q := mkQuery (Some "global") None (Some 20%Z) false None None in
  (q_private q = false ∧ q_limit q = Some 20%Z ∧ (1 ≤ 20)%Z
   ∧ (Z.of_nat (length history45) + 20 ≤ MAX_SAFE_INTEGER)%Z)
  ∧ ∀ m, (∃ k, (Z.of_nat k * 20 ≤ MAX_SAFE_INTEGER)%Z
               ∧ In m (pages_loaded history45 q k))
         ↔ In m history45 ∧ isPrivate m = false
           ∧ msg_room m = default "global" (q_room q).
Proof.
  intros q.
  assert (Hsafe : (Z.of_nat (length history45) + 20 ≤ MAX_SAFE_INTEGER)%Z)
    by (vm_compute; discriminate).
  split; [repeat split; [lia | exact Hsafe]|].
  intros m.
  exact (public_history_complete history45 q 20 m eq_refl eq_refl
           ltac:(lia) Hsafe).
Defined.

Lemma private_filter_spec (q : HistoryQuery) (peer requester : string)
    (m : Message) :
  q_private q = true → q_peer q = Some peer → peer ≠ "" →
  q_requester q = Some requester →
  history_filter q m = true
  ↔ isPrivate m = true
    ∧ ((sender m = peer ∧ msg_to m = Some requester)
       ∨ (sender m = requester ∧ msg_to m = Some peer)).
Proof.
  intros Hpriv Hpeer Hne Hreq. unfold history_filter.
  rewrite Hpriv, Hpeer, Hreq.
  assert (Hon : or_null (Some peer) = Some peer).
  { apply or_null_Some. done. }
  rewrite Hon. unfold to_eq, str_eq_opt.
  rewrite andb_true_iff, !orb_true_iff, !andb_true_iff, !String.eqb_eq.
  destruct (msg_to m) as [t|]; rewrite ?String.eqb_eq;
    intuition congruence.
Qed.

(** X10: the private history asked for by [requester] about [peer]
    holds only messages flagged private that one of the two sent to the
    other, and it is the same answer when the two swap roles: both users
    are served the same conversation. *)
Theorem private_history_pair (ms : list Message) (room : option string)
    (page limit : option Z) (a b : string) :
  a ≠ "" → b ≠ "" →
  let q := mkQuery room page limit true (Some a) (Some b) in
  (∀ m, In m (page_messages (get_messages ms q)) →
        isPrivate m = true
        ∧ ((sender m = a ∧ msg_to m = Some b)
           ∨ (sender m = b ∧ msg_to m = Some a)))
  ∧ get_messages ms q
    = get_messages ms (mkQuery room page limit true (Some b) (Some a)).
Proof.
  intros Ha Hb q. split.
  - intros m Hm. apply page_passes_filter in Hm as [_ Hf].
    by apply (private_filter_spec q a b m) in Hf.
  - assert (Hext : ∀ m, history_filter q m
                        = history_filter
                            (mkQuery room page limit true (Some b) (Some a))
                            m).
    { intros m. apply eq_true_iff_eq.
      rewrite (private_filter_spec q a b m) by done.
      rewrite (private_filter_spec _ b a m) by done. tauto. }
    unfold get_messages. simpl q_page. simpl q_limit.
    by rewrite (filter_ext _ _ Hext).
Qed.

Lemma private_history_pair_witness :
  let q := mkQuery None None None true (Some "alice") (Some "bob") in
  ("alice" ≠ "" ∧ "bob" ≠ "")
  ∧ get_messages (messages chat_state) q
    = get_messages (messages chat_state)
        (mkQuery None None None true (Some "bob") (Some "alice")).
Proof.
  intros q. split; [by split|].
  apply (private_history_pair (messages chat_state) None None None
           "alice" "bob"); done.
Defined.

(** X11: a private query that names no peer, or no requester, selects
    nothing, whatever the store holds: the answer is the empty page with
    total 0. *)
Theorem private_history_needs_both (ms : list Message) (q : HistoryQuery) :
  q_private q = true →
  or_null (q_peer q) = None ∨ q_requester q = None →
  get_messages ms q = mkPage [] 0.
Proof.
  intros Hpriv Hmiss.
  assert (Hf : ∀ m, history_filter q m = false).
  { intros m. unfold history_filter. rewrite Hpriv.
    destruct Hmiss as [-> | Hreq]; [done|].
    destruct (or_null (q_peer q)); [|done]. rewrite Hreq.
    unfold to_eq, str_eq_opt. destruct (msg_to m); simpl;
      by rewrite ?andb_false_r. }
  assert (Hnil : List.filter (history_filter q) ms = []).
  { induction ms as [|m ms IH]; simpl; [done|]. by rewrite Hf. }
  unfold get_messages. rewrite Hnil. simpl.
  by destruct (Z.max 1 _ * Z.max 1 _)%Z, ((Z.max 1 _ - 1) * Z.max 1 _)%Z.
Qed.

Lemma private_history_needs_both_witness :
  let q := private_query (Some "bob") None in
  (q_private q = true ∧ (or_null (q_peer q) = None ∨ q_requester q = None))
  ∧ (∃ m, In m (messages chat_state) ∧ isPrivate m = true
          ∧ msg_to m = Some "bob")
  ∧ get_messages (messages chat_state) q = mkPage [] 0.
Proof.
  intros q. split; [split; [done | by right]|]. split.
  - eexists. vm_compute. split; [right; left; reflexivity | done].
  - apply private_history_needs_both; [done | by right].
Defined.

(** ** Sending to a room *)

(** X12: a message not flagged private, from a joined socket, is pushed
    once and emitted as receiveMessage to the sockets of the sender's
    socket.io room and to no other; where every session's socket is in
    the room of its session (as in every state the server reaches) each
    socket with a session in that room receives it, the sender's own
    included.  The id acknowledged to the sender is the id of the stored
    and broadcast record; sessions, rooms and socket.io rooms are
    untouched. *)
Theorem public_send_reaches_room (st : State) (sid uuid : string) (now : Z)
    (data : SendPayload) (cb : bool) (u : Session) :
  users st !! sid = Some u →
  send_isPrivate data = false →
  subscribed st →
  let r := on_sendMessage st sid uuid now data cb in
  let msg := new_message u uuid now data in
  messages (next r) = push (messages st) msg
  ∧ users (next r) = users st ∧ rooms (next r) = rooms st
  ∧ sio (next r) = sio st
  ∧ ack r = reply cb (AckDelivered (msg_id msg))
  ∧ (∀ c ev, In (c, ev) (emitted r) ↔
             ev = EvReceiveMessage msg ∧ (c, room u) ∈ sio st)
  ∧ (∀ c v, users st !! c = Some v → room v = room u →
            In c (receivers (emitted r)))
  ∧ In sid (receivers (emitted r)).
Proof.
  intros Hu Hpub Hsub r msg.
  assert (Hr : r = mkResult
                 (mkState (users st) (push (messages st) msg) (rooms st)
                    (sio st))
                 (io_to_emit (sio st) (room u) (EvReceiveMessage msg))
                 (reply cb (AckDelivered uuid))).
  { unfold r, on_sendMessage. rewrite Hu. fold msg. cbv zeta.
    assert (Hmp : isPrivate msg = false) by exact Hpub. by rewrite Hmp. }
  rewrite Hr. simpl.
  assert (Hrecv : ∀ c v, users st !! c = Some v → room v = room u →
            In c (receivers (io_to_emit (sio st) (room u)
                               (EvReceiveMessage msg)))).
  { intros c v Hv Hroom. rewrite receivers_io_to_emit. apply In_members.
    rewrite <- Hroom. by apply Hsub. }
  repeat split; try done.
  - by apply In_io_to_emit in H as [? _].
  - by apply In_io_to_emit in H as [_ ?].
  - intros [-> Hin]. by apply In_io_to_emit.
  - by apply (Hrecv sid u).
Qed.

Lemma public_send_reaches_room_witness :
  let data := mkSend (Some "hello") None false None in
  let r := on_sendMessage two_in_global "s1" "m1" 5 data true in
  users two_in_global !! "s1" = Some (mkSession "alice" "global" 0)
  ∧ send_isPrivate data = false
  ∧ same_set (receivers (emitted r)) ["s1"; "s2"] = true
  ∧ In "s1" (receivers (emitted r)).
Proof.
  intros data r.
  assert (Hu : users two_in_global !! "s1"
               = Some (mkSession "alice" "global" 0))
    by (vm_compute; reflexivity).
  assert (Hsub : subscribed two_in_global).
  { apply (run_subscribed
             (join_as "s1" "alice" "global" ++ join_as "s2" "bob" "global")%list
             init); [vm_compute; reflexivity | apply init_subscribed]. }
  split; [exact Hu|]. split; [done|]. split; [vm_compute; reflexivity|].
  apply (public_send_reaches_room two_in_global "s1" "m1" 5 data true _
           Hu eq_refl Hsub).
Defined.

Lemma insert_by_time_last (x m : Message) (l : list Message) :
  (timestamp x ≤ timestamp m)%Z →
  insert_by_time x (l ++ [m]) = (insert_by_time x l ++ [m])%list.
Proof.
  intros Hle. induction l as [|y l IH]; simpl.
  - destruct (Z.leb_spec (timestamp x) (timestamp m)); [done | lia].
  - destruct (timestamp x <=? timestamp y)%Z; [done|]. by rewrite IH.
Qed.

Lemma sort_by_time_last (l : list Message) (m : Message) :
  (∀ x, In x l → (timestamp x ≤ timestamp m)%Z) →
  sort_by_time (l ++ [m]) = (sort_by_time l ++ [m])%list.
Proof.
  unfold sort_by_time. induction l as [|y l IH]; intros Hall; [done|].
  simpl. rewrite IH by (intros x Hx; apply Hall; by right).
  apply insert_by_time_last, Hall. by left.
Qed.

(** X13: send, then read back.  When no stored message is later than
    the clock reading of the send, the message just sent by a joined
    socket, not flagged private, is the last message of page 1 of the
    public history of the sender's room, for every limit the handler
    reads exactly (at most Number.MAX_SAFE_INTEGER; 20 when the query has
    none), and the total of that history has grown by one. *)
Theorem sent_message_ends_page_one (st : State) (sid uuid : string) (now : Z)
    (data : SendPayload) (cb : bool) (u : Session) (q : HistoryQuery) :
  users st !! sid = Some u →
  send_isPrivate data = false →
  (∀ m, In m (messages st) → (timestamp m ≤ now)%Z) →
  q_private q = false →
  default "global" (q_room q) = room u →
  (default 1 (q_page q) ≤ 1)%Z →
  (default 20 (q_limit q) ≤ MAX_SAFE_INTEGER)%Z →
  let st' := next (on_sendMessage st sid uuid now data cb) in
  last (page_messages (get_messages (messages st') q))
  = Some (new_message u uuid now data)
  ∧ total (get_messages (messages st') q)
    = S (total (get_messages (messages st) q)).
Proof.
  intros Hu Hpub Hclock Hq Hroom Hpage _ st'.
  set (msg := new_message u uuid now data).
  assert (Hst' : messages st' = (messages st ++ [msg])%list).
  { unfold st', on_sendMessage. by rewrite Hu. }
  assert (Hpass : history_filter q msg = true).
  { unfold history_filter. rewrite Hq, Hroom. simpl.
    by rewrite Hpub, String.eqb_refl. }
  assert (Hsorted : history_of (messages st') q
                    = (history_of (messages st) q ++ [msg])%list).
  { unfold history_of. rewrite Hst', List.filter_app. simpl.
    rewrite Hpass. apply sort_by_time_last.
    intros x Hx. apply filter_In in Hx as [Hx _]. by apply Hclock. }
  rewrite !get_messages_history. cbn [page_messages total].
  rewrite Hsorted, length_app. simpl length. split; [|lia].
  set (old := history_of (messages st) q).
  unfold js_slice. rewrite length_app. simpl length.
  rewrite (Z.max_l 1 (default 1%Z (q_page q))) by lia.
  set (lim := Z.max 1 (default 20%Z (q_limit q))).
  assert (Hlim : (1 ≤ lim)%Z) by (unfold lim; lia).
  set (n := Z.of_nat (length old + 1)).
  assert (Hn : n = (Z.of_nat (length old) + 1)%Z) by (unfold n; lia).
  destruct (Z.ltb_spec (Z.max 0 (n - 1 * lim)) 0); [lia|].
  destruct (Z.ltb_spec (n - (1 - 1) * lim) 0); [lia|].
  rewrite take_ge by (rewrite length_drop, length_app; simpl; lia).
  rewrite drop_app_le by lia. apply last_snoc.
Qed.

Lemma sent_message_ends_page_one_witness :
  let data := mkSend (Some "again") None false None in
  let q := mkQuery None None (Some 1%Z) false None None in
  let st' := next (on_sendMessage one_message "s1" "m2" 2 data true) in
  (users one_message !! "s1" = Some (mkSession "alice" "global" 0)
   ∧ send_isPrivate data = false
   ∧ (default 20 (q_limit q) ≤ MAX_SAFE_INTEGER)%Z)
  ∧ last (page_messages (get_messages (messages st') q))
    = Some (new_message (mkSession "alice" "global" 0) "m2" 2 data).
Proof.
  intros data q st'.
  assert (Hu : users one_message !! "s1"
               = Some (mkSession "alice" "global" 0))
    by (vm_compute; reflexivity).
  assert (Hsafe : (default 20 (q_limit q) ≤ MAX_SAFE_INTEGER)%Z)
    by (vm_compute; discriminate).
  split; [exact (conj Hu (conj eq_refl Hsafe))|].
  apply (sent_message_ends_page_one one_message "s1" "m2" 2 data true _ q
           Hu eq_refl); try done.
  intros m Hm. vm_compute in Hm. destruct Hm as [<-|[]]. simpl. lia.
Defined.

(** ** Unread counts *)

Lemma bump_lookup (k k' : string) (counts : gmap string nat) :
  default 0%nat (bump k counts !! k')
  = (default 0%nat (counts !! k')
     + (if (k =? k')%string then 1 else 0))%nat.
Proof.
  unfold bump. destruct (String.eqb_spec k k') as [->|Hne].
  - rewrite lookup_insert_eq. simpl. lia.
  - rewrite lookup_insert_ne by done. lia.
Qed.

Lemma bump_positive (k k' : string) (counts : gmap string nat) :
  (∀ n, counts !! k' = Some n → (0 < n)%nat) →
  ∀ n, bump k counts !! k' = Some n → (0 < n)%nat.
Proof.
  intros Hpos n. unfold bump. destruct (decide (k = k')) as [->|Hne].
  - rewrite lookup_insert_eq. intros [= <-]. lia.
  - rewrite lookup_insert_ne by done. apply Hpos.
Qed.

Lemma count_message_lookup (u : Session) (counts : gmap string nat)
    (m : Message) (k : string) :
  default 0%nat (count_message u counts m !! k)
  = (default 0%nat (counts !! k) + unread_under u k [m])%nat.
Proof.
  unfold count_message, unread_under, unread_private_from, unread_public.
  simpl. destruct (isPrivate m); simpl.
  - destruct (str_eq_opt (username u) (msg_to m)
              && negb (includes (username u) (readBy m))); simpl.
    + rewrite bump_lookup. destruct (sender m =? k), (k =? room u); simpl; lia.
    + destruct (k =? room u); simpl; lia.
  - destruct (String.eqb_spec (msg_room m) (room u)) as [Hr|Hr]; simpl.
    + destruct (negb (includes (username u) (readBy m))); simpl.
      * rewrite bump_lookup, Hr, (String.eqb_sym k).
        destruct (room u =? k); simpl; lia.
      * destruct (k =? room u); simpl; lia.
    + destruct (k =? room u); simpl; lia.
Qed.

Lemma count_message_positive (u : Session) (counts : gmap string nat)
    (m : Message) (k : string) :
  (∀ n, counts !! k = Some n → (0 < n)%nat) →
  ∀ n, count_message u counts m !! k = Some n → (0 < n)%nat.
Proof.
  intros Hpos. unfold count_message.
  repeat match goal with |- context [if ?b then _ else _] => destruct b end;
    try done; by apply bump_positive.
Qed.

Lemma unread_under_app (u : Session) (k : string) (l1 l2 : list Message) :
  unread_under u k (l1 ++ l2)
  = (unread_under u k l1 + unread_under u k l2)%nat.
Proof.
  unfold unread_under. rewrite !List.filter_app, !length_app.
  destruct (k =? room u); lia.
Qed.

Lemma fold_count_lookup (u : Session) (ms : list Message)
    (counts : gmap string nat) (k : string) :
  default 0%nat (fold_left (count_message u) ms counts !! k)
  = (default 0%nat (counts !! k) + unread_under u k ms)%nat
  ∧ ((∀ n, counts !! k = Some n → (0 < n)%nat) →
     ∀ n, fold_left (count_message u) ms counts !! k = Some n → (0 < n)%nat).
Proof.
  revert counts. induction ms as [|m ms IH]; intros counts; simpl.
  - split; [unfold unread_under; simpl; destruct (k =? room u); lia | done].
  - destruct (IH (count_message u counts m)) as [Heq Hpos]. split.
    + rewrite Heq, count_message_lookup.
      change (m :: ms) with ([m] ++ ms)%list. rewrite unread_under_app. lia.
    + intros Hc. apply Hpos. by apply count_message_positive.
Qed.

(** X14: for a joined socket, and a store in which no sender or room
    bears the name of a member of Object.prototype, getUnreadCounts
    changes nothing and
    answers with an object that has, under each key k, the number of
    private messages from sender k addressed to the user's name that the
    user is not in the readBy of, plus, when k is the name of the user's
    current room, the number of messages of that room not flagged
    private that the user is not in the readBy of (the user's own
    messages included); a key whose number is 0 is absent. *)
Theorem unread_counts_spec (st : State) (sid : string) (cb : bool)
    (u : Session) :
  users st !! sid = Some u →
  plain_names (messages st) = true →
  ∃ counts,
    on_getUnreadCounts st sid cb = mkResult st [] (reply cb (AckCounts counts))
    ∧ ∀ k, counts !! k
           = if (unread_under u k (messages st) =? 0)%nat then None
             else Some (unread_under u k (messages st)).
Proof.
  intros Hu _. unfold on_getUnreadCounts. rewrite Hu.
  eexists. split; [reflexivity|]. intros k.
  change (fold_left _ (messages st) ∅)
    with (fold_left (count_message u) (messages st) ∅).
  destruct (fold_count_lookup u (messages st) ∅ k) as [Heq Hpos].
  rewrite lookup_empty in Heq. simpl in Heq.
  destruct (fold_left (count_message u) (messages st) ∅ !! k) as [n|] eqn:Hk;
    simpl in Heq.
  - assert (0 < n)%nat by (apply Hpos; [by rewrite lookup_empty | done]).
    rewrite <- Heq. destruct (Nat.eqb_spec n 0); [lia | done].
  - by rewrite <- Heq.
Qed.

Lemma unread_counts_spec_witness :
  (users chat_state !! "s2" = Some (mkSession "bob" "global" 0)
   ∧ plain_names (messages chat_state) = true)
  ∧ ∃ counts,
      on_getUnreadCounts chat_state "s2" true
      = mkResult chat_state [] (Some (AckCounts counts))
      ∧ counts !! "global" = Some 1%nat ∧ counts !! "alice" = None.
Proof.
  assert (Hu : users chat_state !! "s2" = Some (mkSession "bob" "global" 0))
    by (vm_compute; reflexivity).
  assert (Hplain : plain_names (messages chat_state) = true)
    by (vm_compute; reflexivity).
  split; [exact (conj Hu Hplain)|].
  destruct (unread_counts_spec chat_state "s2" true _ Hu Hplain)
    as (counts & Hr & Hk).
  exists counts. split; [exact Hr|]. split; rewrite Hk; vm_compute; reflexivity.
Defined.

(** ** Typing, leaving, changing room *)

Lemma In_flat_room_of_sockets {V : Type} (a : gset (string * string))
    (es : list (string * V)) (ev : ServerEvent) (c : string) :
  In c (receivers (flat_map (λ e, io_to_emit a e.1 ev) es))
  ↔ ∃ e, In e es ∧ (c, e.1) ∈ a.
Proof.
  rewrite In_receivers. split.
  - intros [ev' Hin]. apply in_flat_map in Hin as (e & He & Hin).
    apply In_io_to_emit in Hin as [_ Hin]. eauto.
  - intros (e & He & Hin). exists ev. apply in_flat_map. exists e.
    split; [done|]. by apply In_io_to_emit.
Qed.

(** X15: typing from a joined socket changes no table and is not
    acknowledged.  Unless it is flagged private with a recipient, the
    indicator goes to the sockets of the sender's socket.io room except
    the sending socket; flagged private with a recipient it goes to the
    sockets with a session of that name (each of these being alone in
    the room of its id), so not to the sender's room. *)
Theorem typing_audience (st : State) (sid : string) (data : TypingPayload)
    (u : Session) :
  users st !! sid = Some u →
  let r := on_typing st sid data in
  next r = st ∧ ack r = None
  ∧ match typing_isPrivate data, or_null (typing_to data) with
    | true, Some rcpt =>
        named_rooms_intact st [rcpt] = true →
        ∀ c ev, In (c, ev) (emitted r)
                ↔ ev = EvTyping (username u) (typing_isTyping data) true
                  ∧ ∃ v, users st !! c = Some v ∧ username v = rcpt
    | _, _ =>
        ∀ c ev, In (c, ev) (emitted r)
                ↔ ev = EvTyping (username u) (typing_isTyping data) false
                  ∧ (c, room u) ∈ sio st ∧ c ≠ sid
    end.
Proof.
  intros Hu r. unfold r, on_typing. rewrite Hu. simpl.
  split; [done|]. split; [done|].
  assert (Hroom : ∀ c ev,
    In (c, ev) (socket_to_emit (sio st) sid (room u)
                  (EvTyping (username u) (typing_isTyping data) false))
    ↔ ev = EvTyping (username u) (typing_isTyping data) false
      ∧ (c, room u) ∈ sio st ∧ c ≠ sid).
  { intros c ev. unfold socket_to_emit. rewrite in_map_iff. split.
    - intros (c' & [= -> <-] & Hin). apply filter_In in Hin as [Hin Hne].
      apply In_members in Hin. apply negb_true_iff, String.eqb_neq in Hne.
      done.
    - intros (-> & Hin & Hne). exists c. split; [done|].
      apply filter_In. split; [by apply In_members|].
      by apply negb_true_iff, String.eqb_neq. }
  destruct (typing_isPrivate data); [|exact Hroom].
  destruct (or_null (typing_to data)) as [rcpt|]; [|exact Hroom].
  intros Hown c ev. rewrite named_rooms_intact_spec in Hown.
  assert (Hrc : ∀ v, username v = rcpt → In (username v) [rcpt])
    by (intros v ->; by left).
  rewrite in_flat_map. split.
  - intros ([s v] & Hin & Hem). apply In_entries_named in Hin as [Hv Hname].
    apply In_io_to_emit in Hem as [-> Hc]. simpl in Hc.
    apply (Hown s v Hv (Hrc v Hname)) in Hc. subst c. eauto.
  - intros [-> (v & Hv & Hname)]. exists (c, v). split.
    + by apply In_entries_named.
    + apply In_io_to_emit. split; [done|]. simpl.
      by apply (Hown c v Hv (Hrc v Hname)).
Qed.

Lemma typing_audience_witness :
  let st := sender_room_shared in
  let private := mkTyping true true (Some "bob") in
  let public := mkTyping true false None in
  (users st !! "s1" = Some (mkSession "alice" "global" 0)
   ∧ named_rooms_intact st ["bob"] = true)
  ∧ own_rooms_intact st = false
  ∧ receivers (emitted (on_typing st "s1" private)) = ["s3"]
  ∧ (∀ c ev, In (c, ev) (emitted (on_typing st "s1" private))
             ↔ ev = EvTyping "alice" true true
               ∧ ∃ v, users st !! c = Some v ∧ username v = "bob")
  ∧ same_set (receivers (emitted (on_typing st "s1" public))) ["s2"; "s3"]
    = true
  ∧ (∀ c ev, In (c, ev) (emitted (on_typing st "s1" public))
             ↔ ev = EvTyping "alice" true false
               ∧ (c, "global") ∈ sio st ∧ c ≠ "s1").
Proof.
  intros st private public.
  assert (Hu : users st !! "s1" = Some (mkSession "alice" "global" 0))
    by (vm_compute; reflexivity).
  assert (Hown : named_rooms_intact st ["bob"] = true)
    by (vm_compute; reflexivity).
  split; [exact (conj Hu Hown)|].
  split; [vm_compute; reflexivity|]. split; [vm_compute; reflexivity|].
  split; [exact (proj2 (proj2 (typing_audience st "s1" private _ Hu)) Hown)|].
  split; [vm_compute; reflexivity|].
  exact (proj2 (proj2 (typing_audience st "s1" public _ Hu))).
Defined.

(** X16: when the socket of a session closes, the session is removed
    and no other session, message or room is touched.  The presence list
    sent out is the list of the room without the leaver, and it and the
    departure notice go to the sockets of the room the session was in,
    never to the closing socket itself. *)
Theorem disconnect_notifies_room (st : State) (sid : string) (u : Session) :
  users st !! sid = Some u →
  let r := close_socket st sid in
  users (next r) = delete sid (users st)
  ∧ messages (next r) = messages st ∧ rooms (next r) = rooms st
  ∧ (∀ c ev, In (c, ev) (emitted r)
             ↔ (ev = EvOnlineUsers
                       (onlineUsersInRoom (delete sid (users st)) (room u))
                ∨ ev = EvNotification (username u ++ " left " ++ room u))
               ∧ (c, room u) ∈ sio st ∧ c ≠ sid)
  ∧ (∀ v, In v (onlineUsersInRoom (delete sid (users st)) (room u))
          ↔ ∃ c, c ≠ sid ∧ users st !! c = Some v ∧ room v = room u).
Proof.
  intros Hu r. unfold r, close_socket, on_disconnect. simpl. rewrite Hu.
  simpl. split; [done|]. split; [done|]. split; [done|]. split.
  - intros c ev. rewrite in_app_iff, !In_io_to_emit.
    unfold sio_leave_all. rewrite elem_of_filter. simpl. tauto.
  - intros v. rewrite In_onlineUsersInRoom. split.
    + intros (c & Hc & Hr). apply lookup_delete_Some in Hc as [Hne Hc].
      exists c. split; [congruence | done].
    + intros (c & Hne & Hc & Hr). exists c. split; [|done].
      apply lookup_delete_Some. split; [congruence | done].
Qed.

Lemma disconnect_notifies_room_witness :
  let r := close_socket two_in_global "s2" in
  users two_in_global !! "s2" = Some (mkSession "bob" "global" 0)
  ∧ users (next r) = delete "s2" (users two_in_global)
  ∧ receivers (emitted r) = ["s1"; "s1"].
Proof.
  intros r.
  assert (Hu : users two_in_global !! "s2"
               = Some (mkSession "bob" "global" 0))
    by (vm_compute; reflexivity).
  split; [exact Hu|]. split; [|vm_compute; reflexivity].
  exact (proj1 (disconnect_notifies_room two_in_global "s2" _ Hu)).
Defined.

Lemma In_check (x : string) (arr : list string) :
  includes x arr = true → In x arr.
Proof. apply includes_In. Qed.

Lemma member_check (c r : string) (a : gset (string * string)) :
  includes c (members r a) = true → (c, r) ∈ a.
Proof. intros H. by apply In_members, includes_In. Qed.

Lemma public_send_receivers (st : State) (sid uuid : string) (now : Z)
    (data : SendPayload) (cb : bool) (u : Session) (c : string) :
  users st !! sid = Some u →
  send_isPrivate data = false →
  In c (receivers (emitted (on_sendMessage st sid uuid now data cb)))
  ↔ (c, room u) ∈ sio st.
Proof.
  intros Hu Hpub. unfold on_sendMessage. rewrite Hu. simpl. rewrite Hpub.
  rewrite receivers_io_to_emit. apply In_members.
Qed.

(** X17: a second join on a socket that has a session moves the session
    to the new room and leaves the socket in the socket.io room of the
    old one.  The socket is then no longer among the sockets listed for
    the old room, and still receives every public message sent there. *)
Theorem rejoin_keeps_old_room (st : State) (sid : string) (now : Z)
    (p : JoinPayload) (cb : bool) (u : Session) (name : string)
    (s2 : string) (v : Session) (uuid : string) (now2 : Z)
    (data : SendPayload) (cb2 : bool) :
  users st !! sid = Some u →
  (sid, room u) ∈ sio st →
  or_null (join_username p) = Some name →
  default "global" (join_room p) ≠ room u →
  users st !! s2 = Some v → s2 ≠ sid → room v = room u →
  send_isPrivate data = false →
  let st1 := next (on_join st sid now p cb) in
  users st1 !! sid
  = Some (mkSession name (default "global" (join_room p)) now)
  ∧ ¬ In sid (List.map fst (entries_in_room (users st1) (room u)))
  ∧ In sid (receivers (emitted (on_sendMessage st1 s2 uuid now2 data cb2))).
Proof.
  intros Hu Hin Hname Hroom Hv Hne Hvr Hpub st1.
  assert (Hst1 : st1 = mkState
            (<[sid := mkSession name (default "global" (join_room p)) now]>
               (users st))
            (messages st)
            (if includes (default "global" (join_room p)) (rooms st)
             then rooms st
             else push (rooms st) (default "global" (join_room p)))
            (socket_join sid (default "global" (join_room p)) (sio st))).
  { unfold st1, on_join. by rewrite Hname. }
  rewrite Hst1. simpl. split; [apply lookup_insert_eq|]. split.
  - intros Hlisted. apply in_map_iff in Hlisted as ([k w] & Hk & Hw).
    simpl in Hk. subst k. apply filter_In in Hw as [Hw Hr].
    apply In_map_to_list in Hw. rewrite lookup_insert_eq in Hw.
    injection Hw as <-. simpl in Hr. by apply String.eqb_eq in Hr.
  - apply (public_send_receivers _ s2 uuid now2 data cb2 v); [|done|].
    + simpl. by rewrite lookup_insert_ne.
    + simpl. rewrite Hvr. unfold socket_join. by apply elem_of_union_r.
Qed.

Lemma rejoin_keeps_old_room_witness :
  let p := mkJoin (Some "alice") (Some "dev") in
  let st1 := next (on_join two_in_global "s1" 7 p true) in
  let data := mkSend (Some "still here?") None false None in
  (users two_in_global !! "s1" = Some (mkSession "alice" "global" 0)
   ∧ users two_in_global !! "s2" = Some (mkSession "bob" "global" 0))
  ∧ users st1 !! "s1" = Some (mkSession "alice" "dev" 7)
  ∧ ¬ In "s1" (List.map fst (entries_in_room (users st1) "global"))
  ∧ In "s1" (receivers (emitted (on_sendMessage st1 "s2" "m1" 8 data true))).
Proof.
  intros p st1 data.
  assert (H1 : users two_in_global !! "s1"
               = Some (mkSession "alice" "global" 0))
    by (vm_compute; reflexivity).
  assert (H2 : users two_in_global !! "s2"
               = Some (mkSession "bob" "global" 0))
    by (vm_compute; reflexivity).
  assert (H3 : ("s1", "global") ∈ sio two_in_global).
  { apply member_check. vm_compute. reflexivity. }
  split; [exact (conj H1 H2)|].
  exact (rejoin_keeps_old_room two_in_global "s1" 7 p true _ "alice" "s2" _
           "m1" 8 data true H1 H3 eq_refl ltac:(discriminate) H2
           ltac:(discriminate) eq_refl eq_refl).
Defined.

(** X18: joinRoom to another room does leave the socket.io room of the
    old one: the session is moved, the socket is in the new room, and a
    public message sent in the old room afterwards does not reach it. *)
Theorem joinRoom_leaves_old_room (st : State) (sid r1 : string) (cb : bool)
    (u : Session) (s2 : string) (v : Session) (uuid : string) (now2 : Z)
    (data : SendPayload) (cb2 : bool) :
  users st !! sid = Some u →
  r1 ≠ room u →
  users st !! s2 = Some v → s2 ≠ sid → room v = room u →
  send_isPrivate data = false →
  let st1 := next (on_joinRoom st sid r1 cb) in
  users st1 !! sid = Some (mkSession (username u) r1 (lastSeen u))
  ∧ (sid, r1) ∈ sio st1
  ∧ ¬ In sid (receivers (emitted (on_sendMessage st1 s2 uuid now2 data cb2))).
Proof.
  intros Hu Hroom Hv Hne Hvr Hpub st1.
  unfold st1, on_joinRoom. rewrite Hu. simpl.
  split; [apply lookup_insert_eq|]. split.
  - unfold socket_join. apply elem_of_union_l. by apply elem_of_singleton.
  - rewrite (public_send_receivers _ s2 uuid now2 data cb2 v);
      [| simpl; by rewrite lookup_insert_ne | done].
    simpl. rewrite Hvr. unfold socket_join, socket_leave.
    rewrite elem_of_union, elem_of_singleton, elem_of_difference,
      elem_of_singleton.
    intros [[= ?]|[_ Hnot]]; [congruence | by apply Hnot].
Qed.

Lemma joinRoom_leaves_old_room_witness :
  let st1 := next (on_joinRoom two_in_global "s1" "dev" true) in
  let data := mkSend (Some "still here?") None false None in
  (users two_in_global !! "s1" = Some (mkSession "alice" "global" 0)
   ∧ users two_in_global !! "s2" = Some (mkSession "bob" "global" 0))
  ∧ ¬ In "s1" (receivers (emitted (on_sendMessage st1 "s2" "m1" 8 data true))).
Proof.
  intros st1 data.
  assert (H1 : users two_in_global !! "s1"
               = Some (mkSession "alice" "global" 0))
    by (vm_compute; reflexivity).
  assert (H2 : users two_in_global !! "s2"
               = Some (mkSession "bob" "global" 0))
    by (vm_compute; reflexivity).
  split; [exact (conj H1 H2)|].
  exact (proj2 (proj2
           (joinRoom_leaves_old_room two_in_global "s1" "dev" true _ "s2" _
              "m1" 8 data true H1 ltac:(discriminate) H2 ltac:(discriminate)
              eq_refl eq_refl))).
Defined.

(** ** Who hears of a reaction or a read receipt *)

Lemma emit_update_audience (st : State) (msg : Message) (ev : ServerEvent)
    (c : string) :
  audience_rooms_intact st msg = true →
  In c (receivers (emit_update st msg ev)) ↔ update_audience st msg c.
Proof.
  unfold audience_rooms_intact, emit_update, update_audience.
  destruct (isPrivate msg);
    [|intros _; rewrite receivers_io_to_emit; apply In_members].
  destruct (or_null (msg_to msg)) as [rcpt|];
    [|intros _; rewrite receivers_io_to_emit; apply In_members].
  intros Hown. rewrite named_rooms_intact_spec in Hown.
  assert (Hpart : ∀ v, username v = rcpt ∨ username v = sender msg →
                       In (username v) [rcpt; sender msg]).
  { intros v [-> | ->]; [by left | right; by left]. }
  rewrite In_flat_room_of_sockets. split.
  - intros ([s v] & Hin & Hc). apply filter_In in Hin as [Hv Hname].
    apply In_map_to_list in Hv. simpl in Hname.
    assert (Hnames : username v = rcpt ∨ username v = sender msg).
    { apply orb_true_iff in Hname as [H|H]; apply String.eqb_eq in H; auto. }
    simpl in Hc. apply (Hown s v Hv (Hpart v Hnames)) in Hc.
    subst c. by exists v.
  - intros (v & Hv & Hname). exists (c, v). split.
    + apply filter_In. split; [by apply In_map_to_list|]. simpl.
      apply orb_true_iff. destruct Hname as [H|H]; [left|right];
        by apply String.eqb_eq.
    + simpl. by apply (Hown c v Hv (Hpart v Hname)).
Qed.

(** X19: the reactionUpdate of a react and the readUpdate of a
    readMessage go to an audience fixed by the message alone, whoever
    reacts or reads.  For a message flagged private with a recipient it
    is every socket with a session of the recipient or of the sender
    (each of these being alone in the room of its id); for any other
    message it is the socket.io room the message was sent in, not the
    room the reacting socket is in now, with no proviso. *)
Theorem updates_audience (st : State) (sid mid rn : string) (cb cb' : bool)
    (u : Session) (msg : Message) :
  users st !! sid = Some u →
  find_message mid (messages st) = Some msg →
  audience_rooms_intact st msg = true →
  (∃ r, on_react st sid mid rn cb = Returned r
        ∧ ∀ c, In c (receivers (emitted r)) ↔ update_audience st msg c)
  ∧ (∀ c, In c (receivers (emitted (on_readMessage st sid mid cb')))
          ↔ update_audience st msg c).
Proof.
  intros Hu Hfind Hown. split.
  - unfold on_react. rewrite Hfind, Hu. eexists. split; [reflexivity|].
    intros c. simpl. by rewrite emit_update_audience.
  - intros c. unfold on_readMessage. rewrite Hfind, Hu. simpl.
    destruct (truthy (username u)); simpl.
    + destruct (negb (includes (username u) (readBy msg))); simpl;
        by rewrite emit_update_audience.
    + by rewrite emit_update_audience.
Qed.

Lemma updates_audience_witness :
  let private := new_message (mkSession "alice" "global" 0) "m1" 10
                   (mkSend (Some "hi") None true (Some "bob")) in
  let public := new_message (mkSession "bob" "global" 0) "m2" 11
                  (mkSend (Some "all") None false None) in
  let st := default init
              (run bystander_room_shared
                 [SendMessage "s1" "m1" 10
                    (mkSend (Some "hi") None true (Some "bob")) true;
                  SendMessage "s3" "m2" 11
                    (mkSend (Some "all") None false None) true]) in
  (users st !! "s5" = Some (mkSession "carl" "global" 0)
   ∧ find_message "m1" (messages st) = Some private
   ∧ audience_rooms_intact st private = true
   ∧ find_message "m2" (messages st) = Some public
   ∧ audience_rooms_intact st public = true)
  ∧ own_rooms_intact st = false
  ∧ same_set (receivers (emitted (on_readMessage st "s5" "m1" true)))
      ["s1"; "s2"; "s3"] = true
  ∧ (∀ c, In c (receivers (emitted (on_readMessage st "s5" "m1" true)))
          ↔ update_audience st private c)
  ∧ same_set (receivers (emitted (on_readMessage st "s5" "m2" true)))
      ["s1"; "s2"; "s3"; "s5"] = true
  ∧ (∀ c, In c (receivers (emitted (on_readMessage st "s5" "m2" true)))
          ↔ update_audience st public c).
Proof.
  intros private public st.
  assert (Hu : users st !! "s5" = Some (mkSession "carl" "global" 0))
    by (vm_compute; reflexivity).
  assert (Hf1 : find_message "m1" (messages st) = Some private)
    by (vm_compute; reflexivity).
  assert (Ho1 : audience_rooms_intact st private = true)
    by (vm_compute; reflexivity).
  assert (Hf2 : find_message "m2" (messages st) = Some public)
    by (vm_compute; reflexivity).
  assert (Ho2 : audience_rooms_intact st public = true)
    by (vm_compute; reflexivity).
  split; [exact (conj Hu (conj Hf1 (conj Ho1 (conj Hf2 Ho2))))|].
  split; [vm_compute; reflexivity|]. split; [vm_compute; reflexivity|].
  split; [exact (proj2 (updates_audience st "s5" "m1" "heart" true true _ _
                          Hu Hf1 Ho1))|].
  split; [vm_compute; reflexivity|].
  exact (proj2 (updates_audience st "s5" "m2" "heart" true true _ _
                  Hu Hf2 Ho2)).
Defined.

(** ** The client component against the server *)

Lemma trims_to_empty_nonempty (s : string) :
  trims_to_empty s = false → s ≠ "".
Proof. by destruct s. Qed.

Lemma or_null_nonempty (s : string) : s ≠ "" → or_null (Some s) = Some s.
Proof. intros Hs. by apply or_null_Some. Qed.

(** X20: the login form and the join handler agree on what passes.
    A username of white space only is stopped in the form and nothing is
    emitted; any other username is emitted in a join that the server
    never refuses: the socket gets a session with the username exactly as
    typed (it is not trimmed) in the room chosen, and that room is in the
    directory. *)
Theorem login_never_refused (c : Client) (st : State) (sid : string)
    (now : Z) :
  if trims_to_empty (c_username c) then handleLogin c = (c, [])
  else
    ∃ p, (handleLogin c).2 = [EmitJoin p]
         ∧ c_loggedIn (handleLogin c).1 = true
         ∧ step st (to_server sid "" now (EmitJoin p))
           = Returned (on_join st sid now p false)
         ∧ users (next (on_join st sid now p false)) !! sid
           = Some (mkSession (c_username c) (c_room c) now)
         ∧ In (c_room c) (rooms (next (on_join st sid now p false))).
Proof.
  unfold handleLogin.
  destruct (trims_to_empty (c_username c)) eqn:Hblank; [done|].
  apply trims_to_empty_nonempty, or_null_nonempty in Hblank.
  eexists. split; [reflexivity|]. split; [done|]. split; [done|].
  unfold on_join. simpl join_username. rewrite Hblank. simpl.
  split; [apply lookup_insert_eq|].
  by destruct (add_room_spec (c_room c) (rooms st)) as (Hin & _).
Qed.

(** X21: a message the form lets through (not blank) is sent without a
    private flag and without a recipient, and a server on which the
    socket has a session stores it with the text exactly as typed, the
    session's username as sender and the session's room, and acknowledges
    it; a blank message is not sent at all.  The component has no way of
    sending a private message. *)
Theorem client_message_stored_as_typed (c : Client) (st : State)
    (sid uuid : string) (now : Z) (u : Session) :
  users st !! sid = Some u →
  if trims_to_empty (c_message c) then client_sendMessage c = (c, [])
  else
    ∃ data,
      (client_sendMessage c).2 = [EmitSendMessage data true]
      ∧ c_unreadCount (client_sendMessage c).1 = 0%nat
      ∧ on_sendMessage st sid uuid now data true
        = mkResult
            (mkState (users st)
               (push (messages st)
                  (mkMessage uuid (c_message c) None (username u) now
                     (room u) false None [] [] []))
               (rooms st) (sio st))
            (io_to_emit (sio st) (room u)
               (EvReceiveMessage
                  (mkMessage uuid (c_message c) None (username u) now
                     (room u) false None [] [] [])))
            (Some (AckDelivered uuid)).
Proof.
  intros Hu. unfold client_sendMessage.
  destruct (trims_to_empty (c_message c)) eqn:Hblank; [done|].
  apply trims_to_empty_nonempty, or_null_nonempty in Hblank.
  eexists. split; [reflexivity|]. split; [done|].
  unfold on_sendMessage, new_message. rewrite Hu. simpl send_text.
  rewrite Hblank. done.
Qed.

Lemma client_message_stored_as_typed_witness :
  let c := mkClient "alice" true "global" " hi there " [] [] "" 3 true in
  users one_message !! "s1" = Some (mkSession "alice" "global" 0)
  ∧ ∃ data, (client_sendMessage c).2 = [EmitSendMessage data true]
            ∧ text <$> last (messages (next (on_sendMessage one_message "s1"
                                               "m2" 2 data true)))
              = Some " hi there ".
Proof.
  intros c.
  assert (Hu : users one_message !! "s1"
               = Some (mkSession "alice" "global" 0))
    by (vm_compute; reflexivity).
  split; [exact Hu|].
  destruct (client_message_stored_as_typed c one_message "s1" "m2" 2 _ Hu)
    as (data & Hemit & _ & Hres).
  exists data. split; [exact Hemit|]. rewrite Hres. cbn [next messages].
  unfold push. by rewrite last_snoc.
Defined.

Lemma In_emit_update_event (st : State) (msg : Message) (ev ev' : ServerEvent)
    (c : string) :
  In (c, ev') (emit_update st msg ev) → ev' = ev.
Proof.
  unfold emit_update.
  destruct (isPrivate msg), (or_null (msg_to msg));
    try (intros H; by apply In_io_to_emit in H as [? _]).
  intros H. apply in_flat_map in H as (e & _ & H).
  by apply In_io_to_emit in H as [? _].
Qed.

(** X22: a private message never reaches the screen of a client built
    from this component.  Whatever the server emits for a send flagged
    private with a recipient is a privateMessage, for which the component
    registers no listener: the state of every client that receives it,
    the recipient's and the sender's alike, stays as it was. *)
Theorem private_message_not_displayed (st : State) (sid uuid : string)
    (now : Z) (data : SendPayload) (cb : bool) (u : Session) (rcpt : string)
    (c : string) (ev : ServerEvent) (cl : Client) :
  users st !! sid = Some u →
  send_isPrivate data = true →
  or_null (send_to data) = Some rcpt →
  In (c, ev) (emitted (on_sendMessage st sid uuid now data cb)) →
  client_receive ev cl = cl.
Proof.
  intros Hu Hp Hto.
  rewrite (sendMessage_private st sid uuid now data cb u rcpt Hu Hp Hto).
  cbn [emitted]. rewrite in_app_iff, in_flat_map.
  intros [(e & _ & Hin)|[[= _ <-]|[]]]; [|done].
  by apply In_io_to_emit in Hin as [-> _].
Qed.

Lemma private_message_not_displayed_witness :
  let data := mkSend (Some "hi") None true (Some "bob") in
  let cl := mkClient "bob" true "global" "" [] [] "" 0 true in
  let ev := EvPrivateMessage
              (new_message (mkSession "alice" "global" 0) "m1" 10 data) in
  (users three_sockets !! "s1" = Some (mkSession "alice" "global" 0)
   ∧ In ("s3", ev)
       (emitted (on_sendMessage three_sockets "s1" "m1" 10 data true)))
  ∧ client_receive ev cl = cl.
Proof.
  intros data cl ev.
  assert (Hu : users three_sockets !! "s1"
               = Some (mkSession "alice" "global" 0))
    by (vm_compute; reflexivity).
  assert (Hin : In ("s3", ev)
                  (emitted (on_sendMessage three_sockets "s1" "m1" 10 data
                              true)))
    by (vm_compute; left; reflexivity).
  split; [exact (conj Hu Hin)|].
  exact (private_message_not_displayed three_sockets "s1" "m1" 10 data true
           _ "bob" "s3" ev cl Hu eq_refl eq_refl Hin).
Defined.

(** X23: read receipts never reach the screen either.  Every event a
    readMessage emits is a readUpdate, which the component does not
    listen to: no client changes, whoever reads and whatever the
    message. *)
Theorem read_receipt_not_displayed (st : State) (sid mid : string)
    (cb : bool) (c : string) (ev : ServerEvent) (cl : Client) :
  In (c, ev) (emitted (on_readMessage st sid mid cb)) →
  client_receive ev cl = cl.
Proof.
  unfold on_readMessage. destruct (find_message mid (messages st)); [|done].
  destruct (or_null _); [destruct (negb _)|]; simpl;
    intros H; by apply In_emit_update_event in H as ->.
Qed.

Lemma read_receipt_not_displayed_witness :
  let cl := mkClient "alice" true "global" "" (messages one_message) [] ""
              0 true in
  let ev := EvReadUpdate
              (add_reader "alice"
                 (new_message (mkSession "alice" "global" 0) "m1" 1
                    (mkSend (Some "hi") None false None))) in
  In ("s1", ev) (emitted (on_readMessage one_message "s1" "m1" true))
  ∧ client_receive ev cl = cl.
Proof.
  intros cl ev.
  assert (Hin : In ("s1", ev)
                  (emitted (on_readMessage one_message "s1" "m1" true)))
    by (vm_compute; left; reflexivity).
  split; [exact Hin|].
  exact (read_receipt_not_displayed one_message "s1" "m1" true "s1" ev cl Hin).
Defined.

(** X24: after a reaction the copies agree.  The reactionUpdate the
    server emits carries the stored record with all its reactions, and
    the listener of the component puts that record in the place of every
    message of the same id: the ids and the length of the client's list
    stay as they were, its unread count too, each entry with that id is
    now the server's record, and a second delivery of the same update
    changes nothing. *)
Theorem reaction_update_in_sync (st : State) (sid mid rn : string) (cb : bool)
    (u : Session) (msg : Message) (cl : Client) :
  users st !! sid = Some u →
  find_message mid (messages st) = Some msg →
  ∃ r stored,
    on_react st sid mid rn cb = Returned r
    ∧ find_message mid (messages (next r)) = Some stored
    ∧ reactions stored
      = (reactions msg ++ [mkReaction (username u) rn])%list
    ∧ (∀ c ev, In (c, ev) (emitted r) → ev = EvReactionUpdate stored)
    ∧ let cl' := client_receive (EvReactionUpdate stored) cl in
      List.map msg_id (c_messages cl') = List.map msg_id (c_messages cl)
      ∧ c_unreadCount cl' = c_unreadCount cl
      ∧ (∀ m, In m (c_messages cl') → msg_id m = mid → m = stored)
      ∧ client_receive (EvReactionUpdate stored) cl' = cl'.
Proof.
  intros Hu Hfind.
  set (stored := add_reaction (mkReaction (username u) rn) msg).
  assert (Hid : msg_id stored = mid).
  { destruct (find_message_index mid (messages st) msg (λ m, m) Hfind)
      as (_ & _ & Hid & _). exact Hid. }
  unfold on_react. rewrite Hfind, Hu. eexists _, stored.
  split; [reflexivity|]. cbn [next messages emitted].
  split; [by rewrite find_message_update, Hfind|].
  split; [done|].
  split; [intros c ev H; by apply In_emit_update_event in H|].
  cbv zeta. cbn [client_receive c_messages c_unreadCount]. repeat split.
  - rewrite List.map_map. apply List.map_ext_in. intros m _.
    destruct (String.eqb_spec (msg_id m) (msg_id stored)); congruence.
  - intros m Hin Hm. apply in_map_iff in Hin as (m0 & Hm0 & _).
    destruct (String.eqb_spec (msg_id m0) (msg_id stored)) as [|Hne];
      [done|]. subst m0. rewrite Hid in Hne. done.
  - f_equal. rewrite List.map_map. apply List.map_ext_in. intros m _.
    destruct (String.eqb_spec (msg_id m) (msg_id stored)) as [|Hne].
    + by rewrite String.eqb_refl.
    + by apply String.eqb_neq in Hne as ->.
Qed.

Lemma reaction_update_in_sync_witness :
  let cl := mkClient "alice" true "global" "" (messages one_message) [] ""
              1 true in
  (users one_message !! "s1" = Some (mkSession "alice" "global" 0)
   ∧ find_message "m1" (messages one_message)
     = Some (new_message (mkSession "alice" "global" 0) "m1" 1
               (mkSend (Some "hi") None false None)))
  ∧ ∃ r stored,
      on_react one_message "s1" "m1" "heart" true = Returned r
      ∧ c_messages (client_receive (EvReactionUpdate stored) cl)
        = messages (next r).
Proof.
  intros cl.
  assert (H1 : users one_message !! "s1"
               = Some (mkSession "alice" "global" 0))
    by (vm_compute; reflexivity).
  assert (H2 : find_message "m1" (messages one_message)
     = Some (new_message (mkSession "alice" "global" 0) "m1" 1
               (mkSend (Some "hi") None false None)))
    by (vm_compute; reflexivity).
  split; [exact (conj H1 H2)|].
  destruct (reaction_update_in_sync one_message "s1" "m1" "heart" true _ _
              cl H1 H2) as (r & stored & Hr & _).
  exists r, (add_reaction (mkReaction "alice" "heart")
               (new_message (mkSession "alice" "global" 0) "m1" 1
                  (mkSend (Some "hi") None false None))).
  split; [exact Hr|].
  unfold on_react in Hr. rewrite H2, H1 in Hr. injection Hr as <-.
  vm_compute. reflexivity.
Defined.

(** X25: the typing indicator of the component never names anyone.
    handleTyping emits a bare boolean; the typing handler of the server
    looks for the fields isTyping, isPrivate and to on it and finds none,
    so what it relays to the room carries no true isTyping, and the
    listener of every receiving client sets typingUser to the empty
    string, whatever was typed. *)
Theorem typing_indicator_never_set (c0 : Client) (value : string)
    (st : State) (sid : string) (u : Session) (c : string)
    (ev : ServerEvent) (cl : Client) :
  users st !! sid = Some u →
  ∃ b r,
    (handleTyping c0 value).2 = [EmitTyping b]
    ∧ b = negb (value =? "")
    ∧ step st (to_server sid "" 0 (EmitTyping b)) = Returned r
    ∧ (∀ c', In c' (receivers (emitted r)) ↔ (c', room u) ∈ sio st ∧ c' ≠ sid)
    ∧ (In (c, ev) (emitted r) → c_typingUser (client_receive ev cl) = "").
Proof.
  intros Hu. eexists _, _. split; [reflexivity|]. split; [reflexivity|].
  split; [reflexivity|].
  unfold on_typing, typing_of_boolean. rewrite Hu.
  cbn [emitted typing_isPrivate typing_isTyping].
  unfold socket_to_emit. split.
  - intros c'. unfold receivers. rewrite List.map_map. simpl.
    rewrite List.map_id, filter_In, In_members, negb_true_iff,
      String.eqb_neq. done.
  - intros Hin. apply in_map_iff in Hin as (c' & [= _ <-] & _). done.
Qed.

Lemma typing_indicator_never_set_witness :
  let cl := mkClient "bob" true "global" "" [] [] "" 0 true in
  let r := on_typing two_in_global "s1" (typing_of_boolean true) in
  users two_in_global !! "s1" = Some (mkSession "alice" "global" 0)
  ∧ receivers (emitted r) = ["s2"]
  ∧ ∃ b r', (handleTyping cl "hel").2 = [EmitTyping b]
            ∧ step two_in_global (to_server "s1" "" 0 (EmitTyping b))
              = Returned r'.
Proof.
  intros cl r.
  assert (Hu : users two_in_global !! "s1"
               = Some (mkSession "alice" "global" 0))
    by (vm_compute; reflexivity).
  split; [exact Hu|]. split; [vm_compute; reflexivity|].
  destruct (typing_indicator_never_set cl "hel" two_in_global "s1" _ "s2"
              (EvNotification "") cl Hu) as (b & r' & Hb & _ & Hr & _).
  by exists b, r'.
Defined.

Lemma split_on_nonempty (sep : Ascii.ascii) (s : string) :
  split_on sep s ≠ [].
Proof.
  destruct s as [|c s]; simpl; [done|].
  destruct (Ascii.eqb c sep); [done|]. by destruct (split_on sep s).
Qed.

Lemma split_on_no_sep (sep : Ascii.ascii) (s : string) :
  has_char sep s = false → split_on sep s = [s].
Proof.
  induction s as [|c s IH]; simpl; [done|].
  intros H. apply orb_false_iff in H as [Hc Hs]. rewrite Hc, (IH Hs). done.
Qed.

Lemma split_on_prefix (sep : Ascii.ascii) (pre rest : string) :
  has_char sep pre = false →
  split_on sep (pre ++ String sep rest) = pre :: split_on sep rest.
Proof.
  induction pre as [|c pre IH]; intros H.
  - change ("" ++ String sep rest) with (String sep rest). simpl.
    by rewrite Ascii.eqb_refl.
  - simpl in H. apply orb_false_iff in H as [Hc Hpre].
    change (String c pre ++ String sep rest)
      with (String c (pre ++ String sep rest)).
    simpl. by rewrite Hc, (IH Hpre).
Qed.

(** X26: the link of an uploaded file survives the way through the
    chat when its URL holds no space.  handleFileUpload sends the text
    "[File] " followed by the URL (the file field of the message stays
    null); the renderer recognises the prefix and takes the second
    space-separated piece as the href, which is the URL again.  With a
    space in the URL the href is only the part before it. *)
Theorem file_link_round_trip (url : string) (st : State) (sid uuid : string)
    (now : Z) (u : Session) :
  users st !! sid = Some u →
  ∃ data,
    handleFileUpload url = [EmitSendMessage data false]
    ∧ (∃ m, last (messages (next (on_sendMessage st sid uuid now data false)))
            = Some m
            ∧ text m = "[File] " ++ url ∧ file m = None
            ∧ file_href (text m) = hd_error (split_on Ascii.Space url))
    ∧ (has_char Ascii.Space url = false →
       file_href ("[File] " ++ url) = Some url).
Proof.
  intros Hu. eexists. split; [reflexivity|].
  assert (Hhref : file_href ("[File] " ++ url)
                  = hd_error (split_on Ascii.Space url)).
  { unfold file_href.
    change (String.prefix "[File]" ("[File] " ++ url)) with true.
    change ("[File] " ++ url) with ("[File]" ++ String Ascii.Space url).
    rewrite split_on_prefix by reflexivity. done. }
  split.
  - unfold on_sendMessage. rewrite Hu. cbn [next messages]. unfold push.
    rewrite last_snoc. eexists. split; [reflexivity|].
    unfold new_message. cbn [text file send_text send_file or_null].
    split; [done|]. split; [done|]. exact Hhref.
  - intros Hns. rewrite Hhref, split_on_no_sep by done. done.
Qed.

Lemma file_link_round_trip_witness :
  users one_message !! "s1" = Some (mkSession "alice" "global" 0)
  ∧ file_href ("[File] " ++ "http://localhost:4000/uploads/17.png")
    = Some "http://localhost:4000/uploads/17.png"
  ∧ file_href ("[File] " ++ "http://localhost:4000/uploads/17.tar gz")
    = Some "http://localhost:4000/uploads/17.tar".
Proof.
  assert (Hu : users one_message !! "s1"
               = Some (mkSession "alice" "global" 0))
    by (vm_compute; reflexivity).
  split; [exact Hu|].
  destruct (file_link_round_trip "http://localhost:4000/uploads/17.png"
              one_message "s1" "m2" 2 _ Hu) as (data & _ & _ & Hrt).
  split; [apply Hrt; vm_compute; reflexivity | vm_compute; reflexivity].
Defined.

(** X27: a join with a username announces the session.  The updated
    presence list of the room and the notice "<name> joined <room>" go to
    the joining socket and to the sockets already in the socket.io room,
    and to no other; the list is the new session together with the
    sessions the other sockets have in that room; no message is stored
    or changed. *)
Theorem join_announces (st : State) (sid : string) (now : Z)
    (p : JoinPayload) (cb : bool) (name : string) :
  or_null (join_username p) = Some name →
  let r := on_join st sid now p cb in
  let rm := default "global" (join_room p) in
  (∀ c ev, In (c, ev) (emitted r)
           ↔ (ev = EvOnlineUsers (onlineUsersInRoom (users (next r)) rm)
              ∨ ev = EvNotification (name ++ " joined " ++ rm))
             ∧ (c = sid ∨ (c, rm) ∈ sio st))
  ∧ (∀ v, In v (onlineUsersInRoom (users (next r)) rm)
          ↔ v = mkSession name rm now
            ∨ ∃ c, c ≠ sid ∧ users st !! c = Some v ∧ room v = rm)
  ∧ messages (next r) = messages st.
Proof.
  intros Hname r rm. unfold r, on_join. rewrite Hname. fold rm.
  cbn [emitted next users messages]. split; [|split; [|done]].
  - intros c ev. rewrite in_app_iff, !In_io_to_emit. unfold socket_join.
    rewrite elem_of_union, elem_of_singleton.
    split.
    + intros [[-> [Hc|Hc]]|[-> [Hc|Hc]]]; (split; [auto|]);
        try (left; congruence); by right.
    + intros [[->| ->] [-> |Hc]]; [left|left|right|right];
        (split; [done|]); auto.
  - intros v. rewrite In_onlineUsersInRoom. split.
    + intros (c & Hc & Hr). destruct (decide (sid = c)) as [->|Hne].
      * rewrite lookup_insert_eq in Hc. left. congruence.
      * rewrite lookup_insert_ne in Hc by done. right. exists c.
        split; [congruence | done].
    + intros [->|(c & Hne & Hc & Hr)].
      * exists sid. split; [apply lookup_insert_eq | done].
      * exists c. split; [|done]. rewrite lookup_insert_ne; [done|congruence].
Qed.

Lemma join_announces_witness :
  let p := mkJoin (Some "carl") (Some "global") in
  let r := on_join two_in_global "s3" 4 p true in
  or_null (join_username p) = Some "carl"
  ∧ same_set (receivers (emitted r)) ["s1"; "s2"; "s3"] = true
  ∧ messages (next r) = messages two_in_global.
Proof.
  intros p r. split; [reflexivity|]. split; [vm_compute; reflexivity|].
  exact (proj2 (proj2 (join_announces two_in_global "s3" 4 p true "carl"
                         eq_refl))).
Defined.

